(** * openwebui-content-sync: the reconciliation engine and the downstream client

    A shallow embedding of [internal/sync/manager.go] (the sync manager) and of
    the OpenWebUI HTTP client (the variant with adaptive ingestion polling),
    together with the properties of the specification that concern them.

    Conventions.
    - Go strings are [string]; byte slices are [list Byte.byte]; [time.Time]
      and [time.Duration] are [Z] (nanoseconds on one virtual clock).
    - A Go [error] result is [option error]; a Go [(T, error)] result is
      [result T].
    - Go maps are [gmap]; the randomised order of [for ... range m] is an
      explicit oracle constrained only to enumerate the map.
    - Everything outside the process (the downstream service, the file system,
      the clock) is explicit state threaded through the functions. *)

From Stdlib Require Import ZArith Ascii String List.
From stdpp Require Import gmap strings list fin_maps.

Local Open Scope string_scope.
Local Open Scope Z_scope.

(** ** Go values shared by all packages *)

Inductive Arg : Type :=
| AString (s : string)
| AInt (z : Z)
| ADuration (d : Z).

(** [fmt.Errorf(format, args...)]: [Errorf] when the format has no [%w],
    [Wrapf] when it wraps the error bound to [%w]. *)
Inductive error : Type :=
| Errorf (format : string) (args : list Arg)
| Wrapf (format : string) (args : list Arg) (wrapped : error).

Definition errors_New (msg : string) : error := Errorf msg [].

Inductive result (A : Type) : Type :=
| Ok (a : A)
| Err (e : error).
Arguments Ok {A} a.
Arguments Err {A} e.

Definition is_ok {A} (r : result A) : bool :=
  match r with Ok _ => true | Err _ => false end.

(** [!=] and [==] on strings. *)
Definition streq (a b : string) : bool := bool_decide (a = b).
Definition strne (a b : string) : bool := negb (streq a b).

(** ** context.Context

    A context is cancelled from a fixed instant of the virtual clock on
    ([context.WithTimeout] in [Scheduler.RunSync], or the shutdown signal). *)

Record Context : Type := { cancelAt : option Z }.

Definition Background : Context := {| cancelAt := None |}.

Definition ctx_Done (ctx : Context) (now : Z) : bool :=
  match cancelAt ctx with
  | Some t => t <=? now
  | None => false
  end.

Definition ctx_Err : error := errors_New "context canceled".

(** ** path/filepath *)

Module filepath.

Definition IsPathSeparator (c : ascii) : bool := Ascii.eqb c "/"%char.

(** Strip the separators at the head of a reversed path, i.e. the trailing
    slashes of the path. *)
Fixpoint strip_seps (l : list ascii) : list ascii :=
  match l with
  | c :: l' => if IsPathSeparator c then strip_seps l' else l
  | [] => []
  end.

(** The characters up to the first separator of a reversed path, i.e. its
    last element read backwards. *)
Fixpoint last_elem (l : list ascii) : list ascii :=
  match l with
  | c :: l' => if IsPathSeparator c then [] else c :: last_elem l'
  | [] => []
  end.

(** [filepath.Base] on a Unix path. *)
Definition Base (path : string) : string :=
  match path with
  | EmptyString => "."
  | _ =>
      match rev (last_elem (strip_seps (rev (list_ascii_of_string path)))) with
      | [] => "/"
      | e => string_of_list_ascii e
      end
  end.

End filepath.

(** ** time *)

Definition Second : Z := 1000000000.
Definition Minute : Z := 60 * Second.

(** [d.Round(m)] for a non-negative duration: to the nearest multiple of [m],
    halves rounded up. *)
Definition Duration_Round (d m : Z) : Z := ((d + m / 2) / m) * m.

(** ** package openwebui: the downstream client *)

Module openwebui.

(** [File]: the fields of the JSON artifact the program reads. *)
Record File : Type := {
  ID : string;
  Hash : string;
  Filename : string;
  Data_Status : string;
  Meta_Name : string;
  CreatedAt : Z;
  UpdatedAt : Z;
  Path : string
}.

Record Knowledge : Type := {
  KID : string;
  KName : string;
  KDescription : string;
  KFiles : list File
}.

(** *** net/http as the client sees it *)

Inductive ReqBody : Type :=
| NoBody
| JSONBody (fields : list (string * string))
| MultipartBody (field filename : string) (content : list Byte.byte).

Record Request : Type := {
  Method : string;
  URL : string;
  ContentType : option string;
  Authorization : option string;
  Body : ReqBody
}.

(** A response; [RespBody] is what [io.ReadAll] returns on its body. *)
Record Response : Type := {
  StatusCode : Z;
  RespBody : result string
}.

Definition StatusOK : Z := 200.
Definition StatusCreated : Z := 201.
Definition StatusNotFound : Z := 404.

(** Ghost events of a run, oldest first. *)
Inductive Event : Type :=
| EvRequest (t : Z) (req : Request) (resp : result Response)
| EvProbe (t : Z) (fileID : string) (r : result File)
| EvSleep (t0 t1 : Z)
| EvTimer (t0 t1 : Z) (cancelled : bool).

(** [*http.Client] with the network and the service behind it. Requests take
    no time on the virtual clock; only sleeping advances it. The service
    answers the [sent]-th request at instant [now] with
    [respond sent now req]. *)
Record HttpClient : Type := {
  now : Z;
  sent : nat;
  respond : nat -> Z -> Request -> result Response;
  log : list Event
}.

Definition emit (ev : Event) (hc : HttpClient) : HttpClient :=
  {| now := now hc; sent := sent hc; respond := respond hc;
     log := log hc ++ [ev] |}.

(** [c.client.Do(req)] for a request made with context [ctx]. *)
Definition Do (ctx : Context) (req : Request) (hc : HttpClient)
  : result Response * HttpClient :=
  if ctx_Done ctx (now hc) then
    let r := Err ctx_Err in (r, emit (EvRequest (now hc) req r) hc)
  else
    let r := respond hc (sent hc) (now hc) req in
    (r, {| now := now hc; sent := S (sent hc); respond := respond hc;
           log := log hc ++ [EvRequest (now hc) req r] |}).

(** [time.Sleep(d)]: not interruptible. *)
Definition time_Sleep (d : Z) (hc : HttpClient) : HttpClient :=
  {| now := now hc + d; sent := sent hc; respond := respond hc;
     log := log hc ++ [EvSleep (now hc) (now hc + d)] |}.

(** [select { case <-ctx.Done(): ... case <-time.After(d): ... }]; the
    boolean tells whether the [ctx.Done()] case was taken. *)
Definition select_Done_After (ctx : Context) (d : Z) (hc : HttpClient)
  : bool * HttpClient :=
  let wake :=
    match cancelAt ctx with
    | Some t => if t <=? now hc + d then Some (Z.max t (now hc)) else None
    | None => None
    end in
  match wake with
  | Some t =>
      (true, {| now := t; sent := sent hc; respond := respond hc;
                log := log hc ++ [EvTimer (now hc) t true] |})
  | None =>
      (false, {| now := now hc + d; sent := sent hc; respond := respond hc;
                 log := log hc ++ [EvTimer (now hc) (now hc + d) false] |})
  end.

Record Client : Type := {
  baseURL : string;
  apiKey : string;
  client : HttpClient
}.

Definition with_client (c : Client) (hc : HttpClient) : Client :=
  {| baseURL := baseURL c; apiKey := apiKey c; client := hc |}.

Record pollInterval : Type := { attempts : nat; delay : Z }.

Definition pollIntervals : list pollInterval :=
  [ {| attempts := 5; delay := 2 * Second |};
    {| attempts := 5; delay := 5 * Second |};
    {| attempts := 10; delay := 10 * Second |};
    {| attempts := 15; delay := 15 * Second |};
    {| attempts := 16; delay := 20 * Second |} ].

Definition totalAttempts : nat :=
  fold_left (fun acc iv => (acc + attempts iv)%nat) pollIntervals 0%nat.

Section WithLibraries.

(** What the program takes from the Go library without this development
    modelling it: the URL parser behind [http.NewRequestWithContext] and
    the JSON decoders. *)
Variable url_Parse : string -> option error.
Variable json_Unmarshal_File : string -> result File.
Variable json_Unmarshal_Knowledge : string -> result (list Knowledge).

Definition http_NewRequestWithContext
    (method url : string) (body : ReqBody) : result Request :=
  match url_Parse url with
  | Some e => Err e
  | None =>
      Ok {| Method := method; URL := url; ContentType := None;
            Authorization := None; Body := body |}
  end.

Definition set_ContentType (v : string) (req : Request) : Request :=
  {| Method := Method req; URL := URL req; ContentType := Some v;
     Authorization := Authorization req; Body := Body req |}.

(** [if c.apiKey != "" { req.Header.Set("Authorization", "Bearer "+c.apiKey) }] *)
Definition authorize (c : Client) (req : Request) : Request :=
  if strne (apiKey c) "" then
    {| Method := Method req; URL := URL req; ContentType := ContentType req;
       Authorization := Some ("Bearer " ++ apiKey c); Body := Body req |}
  else req.

(** [string(body)] where a failed read was ignored: [body, _ := io.ReadAll]. *)
Definition body_text (resp : Response) : string :=
  match RespBody resp with Ok s => s | Err _ => "" end.

(** [json.Marshal] of a [map[string]string]: it has no failing input. *)
Definition json_Marshal (payload : list (string * string)) : result ReqBody :=
  Ok (JSONBody payload).

Definition Client_GetFile (ctx : Context) (fileID : string) (c : Client)
  : result File * Client :=
  let url := baseURL c ++ "/api/v1/files/" ++ fileID in
  let probe (r : result File) (c : Client) :=
    (r, with_client c (emit (EvProbe (now (client c)) fileID r) (client c))) in
  match http_NewRequestWithContext "GET" url NoBody with
  | Err e => probe (Err (Wrapf "failed to create request: %w" [] e)) c
  | Ok req =>
      let req := authorize c req in
      let '(r, hc) := Do ctx req (client c) in
      let c := with_client c hc in
      match r with
      | Err e => probe (Err (Wrapf "failed to send request: %w" [] e)) c
      | Ok resp =>
          if negb (StatusCode resp =? StatusOK) then
            probe (Err (Errorf "get file failed with status %d: %s"
                          [AInt (StatusCode resp); AString (body_text resp)])) c
          else
            match RespBody resp with
            | Err e => probe (Err (Wrapf "failed to read response body: %w" [] e)) c
            | Ok body =>
                match json_Unmarshal_File body with
                | Err e => probe (Err (Wrapf "failed to decode response: %w" [] e)) c
                | Ok file => probe (Ok file) c
                end
            end
      end
  end.

(** One iteration of the inner loop of [waitForFileProcessing], after
    [attempt++]. [Some r] is [return r]; [None] goes on to the next
    iteration. *)
Definition poll_once (ctx : Context) (fileID : string) (startTime : Z)
    (d : Z) (attempt : nat) (c : Client) : option (option error) * Client :=
  let elapsed := now (client c) - startTime in
  if ctx_Done ctx (now (client c)) then
    (Some (Some (Wrapf "context cancelled while waiting for file processing after %v: %w"
                   [ADuration (Duration_Round elapsed Second)] ctx_Err)), c)
  else
    let '(r, c) := Client_GetFile ctx fileID c in
    match r with
    | Err e => (None, with_client c (time_Sleep d (client c)))
    | Ok file =>
        let st := Data_Status file in
        if streq st "processed" || streq st "completed" || streq st "" then
          (Some None, c)
        else if streq st "error" || streq st "failed" then
          (Some (Some (Errorf "file processing failed with status: %s after %v"
                         [AString st; ADuration (Duration_Round elapsed Second)])), c)
        else if (attempt <? totalAttempts)%nat then
          let '(cancelled, hc) := select_Done_After ctx d (client c) in
          if cancelled then
            (Some (Some (Wrapf "context cancelled during wait after %v: %w"
                           [ADuration (Duration_Round elapsed Second)] ctx_Err)),
             with_client c hc)
          else (None, with_client c hc)
        else (None, c)
    end.

(** [for i := 0; i < interval.attempts; i++ { ... }], [i] iterations left. *)
Fixpoint poll_attempts (ctx : Context) (fileID : string) (startTime : Z)
    (iv : pollInterval) (i : nat) (attempt : nat) (c : Client)
  : option (option error) * nat * Client :=
  match i with
  | O => (None, attempt, c)
  | S i' =>
      let attempt := S attempt in
      let '(r, c) := poll_once ctx fileID startTime (delay iv) attempt c in
      match r with
      | Some ret => (Some ret, attempt, c)
      | None => poll_attempts ctx fileID startTime iv i' attempt c
      end
  end.

(** [for _, interval := range pollIntervals { ... }] *)
Fixpoint poll_intervals (ctx : Context) (fileID : string) (startTime : Z)
    (ivs : list pollInterval) (attempt : nat) (c : Client)
  : option (option error) * nat * Client :=
  match ivs with
  | [] => (None, attempt, c)
  | iv :: rest =>
      let '(r, attempt, c) :=
        poll_attempts ctx fileID startTime iv (attempts iv) attempt c in
      match r with
      | Some ret => (Some ret, attempt, c)
      | None => poll_intervals ctx fileID startTime rest attempt c
      end
  end.

Definition Client_waitForFileProcessing (ctx : Context) (fileID : string)
    (c : Client) : option error * Client :=
  let startTime := now (client c) in
  let '(r, _, c) := poll_intervals ctx fileID startTime pollIntervals 0%nat c in
  match r with
  | Some ret => (ret, c)
  | None =>
      let elapsed := now (client c) - startTime in
      (Some (Errorf "file processing timeout after %v"
               [ADuration (Duration_Round elapsed Second)]), c)
  end.

Definition status_accepted (code : Z) : bool :=
  (code =? StatusOK) || (code =? StatusCreated).

Definition Client_UploadFile (ctx : Context) (filename : string)
    (content : list Byte.byte) (c : Client) : result File * Client :=
  let url := baseURL c ++ "/api/v1/files/" in
  match http_NewRequestWithContext "POST" url
          (MultipartBody "file" filename content) with
  | Err e => (Err (Wrapf "failed to create request: %w" [] e), c)
  | Ok req =>
      let req := authorize c (set_ContentType "multipart/form-data" req) in
      let '(r, hc) := Do ctx req (client c) in
      let c := with_client c hc in
      match r with
      | Err e => (Err (Wrapf "failed to send request: %w" [] e), c)
      | Ok resp =>
          if negb (status_accepted (StatusCode resp)) then
            (Err (Errorf "upload failed with status %d: %s"
                    [AInt (StatusCode resp); AString (body_text resp)]), c)
          else
            match RespBody resp with
            | Err e => (Err (Wrapf "failed to read response body: %w" [] e), c)
            | Ok body =>
                match json_Unmarshal_File body with
                | Err e => (Err (Wrapf "failed to decode response: %w" [] e), c)
                | Ok file =>
                    if streq (Data_Status file) "pending" then
                      (* the wait's error is logged and dropped *)
                      let '(_, c) := Client_waitForFileProcessing ctx (ID file) c in
                      (Ok file, c)
                    else (Ok file, c)
                end
            end
      end
  end.

Definition Client_ListKnowledge (ctx : Context) (c : Client)
  : result (list Knowledge) * Client :=
  let url := baseURL c ++ "/api/v1/knowledge/" in
  match http_NewRequestWithContext "GET" url NoBody with
  | Err e => (Err (Wrapf "failed to create request: %w" [] e), c)
  | Ok req =>
      let req := authorize c req in
      let '(r, hc) := Do ctx req (client c) in
      let c := with_client c hc in
      match r with
      | Err e => (Err (Wrapf "failed to send request: %w" [] e), c)
      | Ok resp =>
          if negb (StatusCode resp =? StatusOK) then
            (Err (Errorf "list knowledge failed with status %d: %s"
                    [AInt (StatusCode resp); AString (body_text resp)]), c)
          else
            match RespBody resp with
            | Err e => (Err (Wrapf "failed to decode response: %w" [] e), c)
            | Ok body =>
                match json_Unmarshal_Knowledge body with
                | Err e => (Err (Wrapf "failed to decode response: %w" [] e), c)
                | Ok knowledge => (Ok knowledge, c)
                end
            end
      end
  end.

Definition Client_AddFileToKnowledge (ctx : Context)
    (knowledgeID fileID : string) (c : Client) : option error * Client :=
  let url := baseURL c ++ "/api/v1/knowledge/" ++ knowledgeID ++ "/file/add" in
  match json_Marshal [("file_id", fileID)] with
  | Err e => (Some (Wrapf "failed to marshal payload: %w" [] e), c)
  | Ok jsonData =>
      match http_NewRequestWithContext "POST" url jsonData with
      | Err e => (Some (Wrapf "failed to create request: %w" [] e), c)
      | Ok req =>
          let req := authorize c (set_ContentType "application/json" req) in
          let '(r, hc) := Do ctx req (client c) in
          let c := with_client c hc in
          match r with
          | Err e => (Some (Wrapf "failed to send request: %w" [] e), c)
          | Ok resp =>
              if negb (status_accepted (StatusCode resp)) then
                (Some (Errorf "add file to knowledge failed with status %d: %s"
                         [AInt (StatusCode resp); AString (body_text resp)]), c)
              else (None, c)
          end
      end
  end.

Definition Client_RemoveFileFromKnowledge (ctx : Context)
    (knowledgeID fileID : string) (c : Client) : option error * Client :=
  let url := baseURL c ++ "/api/v1/knowledge/" ++ knowledgeID ++ "/file/remove" in
  match json_Marshal [("file_id", fileID)] with
  | Err e => (Some (Wrapf "failed to marshal payload: %w" [] e), c)
  | Ok jsonData =>
      match http_NewRequestWithContext "POST" url jsonData with
      | Err e => (Some (Wrapf "failed to create request: %w" [] e), c)
      | Ok req =>
          let req := authorize c (set_ContentType "application/json" req) in
          let '(r, hc) := Do ctx req (client c) in
          let c := with_client c hc in
          match r with
          | Err e => (Some (Wrapf "failed to send request: %w" [] e), c)
          | Ok resp =>
              (* Consider 404 as success *)
              if StatusCode resp =? StatusNotFound then (None, c)
              else if negb (status_accepted (StatusCode resp)) then
                (Some (Errorf "remove file from knowledge failed with status %d: %s"
                         [AInt (StatusCode resp); AString (body_text resp)]), c)
              else (None, c)
          end
      end
  end.

Definition Client_GetKnowledgeFiles (ctx : Context) (knowledgeID : string)
    (c : Client) : result (list File) * Client :=
  let url := baseURL c ++ "/api/v1/knowledge/" in
  match http_NewRequestWithContext "GET" url NoBody with
  | Err e => (Err (Wrapf "failed to create request: %w" [] e), c)
  | Ok req =>
      let req := authorize c req in
      let '(r, hc) := Do ctx req (client c) in
      let c := with_client c hc in
      match r with
      | Err e => (Err (Wrapf "failed to send request: %w" [] e), c)
      | Ok resp =>
          if negb (StatusCode resp =? StatusOK) then
            (Err (Errorf "request failed with status %d: %s"
                    [AInt (StatusCode resp); AString (body_text resp)]), c)
          else
            match RespBody resp with
            | Err e => (Err (Wrapf "failed to read response body: %w" [] e), c)
            | Ok body =>
                match json_Unmarshal_Knowledge body with
                | Err e => (Err (Wrapf "failed to decode response: %w" [] e), c)
                | Ok knowledgeList =>
                    match find (fun k => streq (KID k) knowledgeID) knowledgeList with
                    | None => (Ok [], c)
                    | Some targetKnowledge => (Ok (KFiles targetKnowledge), c)
                    end
                end
            end
      end
  end.

End WithLibraries.

(** [ClientInterface] (interface.go): what the sync manager needs of a
    client. [C] is the client value together with whatever it talks to. *)
Class ClientInterface (C : Type) : Type := {
  UploadFile : Context -> string -> list Byte.byte -> C -> result File * C;
  ListKnowledge : Context -> C -> result (list Knowledge) * C;
  AddFileToKnowledge : Context -> string -> string -> C -> option error * C;
  RemoveFileFromKnowledge : Context -> string -> string -> C -> option error * C;
  GetKnowledgeFiles : Context -> string -> C -> result (list File) * C
}.

(** [*Client] satisfies the interface. *)
#[export] Instance Client_ClientInterface
    (url_Parse : string -> option error)
    (json_Unmarshal_File : string -> result File)
    (json_Unmarshal_Knowledge : string -> result (list Knowledge))
  : ClientInterface Client := {
  UploadFile := Client_UploadFile url_Parse json_Unmarshal_File;
  ListKnowledge := Client_ListKnowledge url_Parse json_Unmarshal_Knowledge;
  AddFileToKnowledge := Client_AddFileToKnowledge url_Parse;
  RemoveFileFromKnowledge := Client_RemoveFileFromKnowledge url_Parse;
  GetKnowledgeFiles := Client_GetKnowledgeFiles url_Parse json_Unmarshal_Knowledge
}.

End openwebui.

(** ** package adapter: the producer contract *)

Module adapter.

Record File : Type := {
  Path : string;
  Content : list Byte.byte;
  Hash : string;
  Modified : Z;
  Size : Z;
  Source : string;
  KnowledgeID : string
}.

(** A value of interface [Adapter]: its name, what [FetchFiles] returns
    (a snapshot of the upstream, or an error), and the last-sync stamp read
    by [GetLastSync] and written by [SetLastSync]. *)
Record Adapter : Type := {
  Name : string;
  FetchFiles : Context -> result (list File);
  GetLastSync : Z
}.

Definition SetLastSync (t : Z) (a : Adapter) : Adapter :=
  {| Name := Name a; FetchFiles := FetchFiles a; GetLastSync := t |}.

End adapter.

(** ** package sync: the reconciliation engine *)

Module sync.

Record FileMetadata : Type := {
  Path : string;
  Hash : string;
  FileID : string;
  Source : string;
  KnowledgeID : string;
  SyncedAt : Z;
  Modified : Z
}.

(** [Manager]; the [openwebuiClient] field lives in the [World] below, with
    the service it talks to. *)
Record Manager : Type := {
  storagePath : string;
  knowledgeID : string;
  fileIndex : gmap string FileMetadata;
  indexPath : string
}.

Definition with_fileIndex (m : Manager) (idx : gmap string FileMetadata) : Manager :=
  {| storagePath := storagePath m; knowledgeID := knowledgeID m;
     fileIndex := idx; indexPath := indexPath m |}.

(** Ghost log of the calls made through [ClientInterface], with results. *)
Inductive Call : Type :=
| CallUploadFile (filename : string) (content : list Byte.byte)
    (r : result openwebui.File)
| CallListKnowledge (r : result (list openwebui.Knowledge))
| CallAddFileToKnowledge (knowledgeID fileID : string) (r : option error)
| CallRemoveFileFromKnowledge (knowledgeID fileID : string) (r : option error).

(** The file system under the storage root: its files, and for each path the
    error [os.MkdirAll] resp. [os.WriteFile] fails with there, if any. *)
Record Disk : Type := {
  files : gmap string (list Byte.byte);
  mkdir_err : string -> option error;
  write_err : string -> option error
}.

Definition os_MkdirAll (dir : string) (d : Disk) : option error := mkdir_err d dir.

Definition os_WriteFile (name : string) (data : list Byte.byte) (d : Disk)
  : option error * Disk :=
  match write_err d name with
  | Some e => (Some e, d)
  | None =>
      (None, {| files := <[name := data]> (files d);
                mkdir_err := mkdir_err d; write_err := write_err d |})
  end.

(** Everything the manager acts on besides itself. [rangeSeed] counts the
    [range] loops over the index run so far: each one draws a fresh order. *)
Record World (C : Type) : Type := {
  openwebuiClient : C;
  calls : list Call;
  disk : Disk;
  clock : Z;
  rangeSeed : nat
}.
Arguments openwebuiClient {C} w.
Arguments calls {C} w.
Arguments disk {C} w.
Arguments clock {C} w.
Arguments rangeSeed {C} w.

(** What the manager takes from the Go runtime and library without this
    development modelling it: [filepath.Join], [filepath.Dir],
    [json.MarshalIndent] on the index, and the order in which
    [for k, v := range m.fileIndex] visits the map on its [n]-th use. *)
Record GoRuntime : Type := {
  filepath_Join : list string -> string;
  filepath_Dir : string -> string;
  json_MarshalIndent : gmap string FileMetadata -> result (list Byte.byte);
  map_range : nat -> gmap string FileMetadata -> list (string * FileMetadata)
}.

(** A [range] loop visits every entry of the map exactly once. *)
Definition range_enumerates (rt : GoRuntime) : Prop :=
  forall n (m : gmap string FileMetadata), map_range rt n m ≡ₚ map_to_list m.

(** How a function of the manager ends. *)
Inductive outcome : Type :=
| Returned (err : option error)
| Panicked.

Section Manager.

Context {C : Type} `{CI : openwebui.ClientInterface C}.
Variable rt : GoRuntime.

Definition State : Type := Manager * World C.

Definition record_call (c : C) (call : Call) (w : World C) : World C :=
  {| openwebuiClient := c; calls := calls w ++ [call]; disk := disk w;
     clock := clock w; rangeSeed := rangeSeed w |}.

Definition with_disk (w : World C) (d : Disk) : World C :=
  {| openwebuiClient := openwebuiClient w; calls := calls w; disk := d;
     clock := clock w; rangeSeed := rangeSeed w |}.

(** [time.Now()] *)
Definition time_Now (w : World C) : Z * World C :=
  (clock w,
   {| openwebuiClient := openwebuiClient w; calls := calls w; disk := disk w;
      clock := clock w + 1; rangeSeed := rangeSeed w |}).

(** The order of one [range m.fileIndex] loop. *)
Definition range_fileIndex (m : Manager) (w : World C)
  : list (string * FileMetadata) * World C :=
  (map_range rt (rangeSeed w) (fileIndex m),
   {| openwebuiClient := openwebuiClient w; calls := calls w; disk := disk w;
      clock := clock w; rangeSeed := S (rangeSeed w) |}).

Definition client_UploadFile (ctx : Context) (filename : string)
    (content : list Byte.byte) (w : World C) : result openwebui.File * World C :=
  let '(r, c) := openwebui.UploadFile ctx filename content (openwebuiClient w) in
  (r, record_call c (CallUploadFile filename content r) w).

Definition client_ListKnowledge (ctx : Context) (w : World C)
  : result (list openwebui.Knowledge) * World C :=
  let '(r, c) := openwebui.ListKnowledge ctx (openwebuiClient w) in
  (r, record_call c (CallListKnowledge r) w).

Definition client_AddFileToKnowledge (ctx : Context) (knowledgeID fileID : string)
    (w : World C) : option error * World C :=
  let '(r, c) := openwebui.AddFileToKnowledge ctx knowledgeID fileID (openwebuiClient w) in
  (r, record_call c (CallAddFileToKnowledge knowledgeID fileID r) w).

Definition client_RemoveFileFromKnowledge (ctx : Context)
    (knowledgeID fileID : string) (w : World C) : option error * World C :=
  let '(r, c) :=
    openwebui.RemoveFileFromKnowledge ctx knowledgeID fileID (openwebuiClient w) in
  (r, record_call c (CallRemoveFileFromKnowledge knowledgeID fileID r) w).

(** [saveFileLocally] *)
Definition saveFileLocally (path : string) (content : list Byte.byte)
    (w : World C) : option error * World C :=
  let dir := filepath_Dir rt path in
  match os_MkdirAll dir (disk w) with
  | Some err => (Some (Wrapf "failed to create directory: %w" [] err), w)
  | None =>
      let '(r, d) := os_WriteFile path content (disk w) in
      match r with
      | Some err => (Some (Wrapf "failed to write file: %w" [] err), with_disk w d)
      | None => (None, with_disk w d)
      end
  end.

(** [saveFileIndex] *)
Definition saveFileIndex (m : Manager) (w : World C) : option error * World C :=
  match json_MarshalIndent rt (fileIndex m) with
  | Err err => (Some (Wrapf "failed to marshal file index: %w" [] err), w)
  | Ok data =>
      let '(r, d) := os_WriteFile (indexPath m) data (disk w) in
      match r with
      | Some err => (Some (Wrapf "failed to write file index: %w" [] err), with_disk w d)
      | None => (None, with_disk w d)
      end
  end.

(** The lookup at the head of [syncFile]: by file name, else by hash over a
    [range] of the index. Returns [existing], [exists], [matchReason]. *)
Definition find_existing (filename hash : string) (m : Manager) (w : World C)
  : option FileMetadata * string * World C :=
  match fileIndex m !! filename with
  | Some existing => (Some existing, "filename", w)
  | None =>
      let '(entries, w) := range_fileIndex m w in
      match find (fun kv => streq (Hash (snd kv)) hash) entries with
      | Some (_, metadata) => (Some metadata, "hash", w)
      | None => (None, "", w)
      end
  end.

(** [x] if non-empty, else the manager's knowledge ID. *)
Definition or_default (x : string) (m : Manager) : string :=
  if streq x "" then knowledgeID m else x.

(** The tail of [syncFile], from "Save file to local storage" on. *)
Definition upload_and_index (ctx : Context) (file : adapter.File) (source : string)
    (existing : option FileMetadata) (matchReason : string) (st : State)
  : option error * State :=
  let '(m, w) := st in
  let localPath :=
    filepath_Join rt [storagePath m; "files"; source; adapter.Path file] in
  let '(r, w) := saveFileLocally localPath (adapter.Content file) w in
  match r with
  | Some err => (Some (Wrapf "failed to save file locally: %w" [] err), (m, w))
  | None =>
      let '(r, w) :=
        client_UploadFile ctx (filepath.Base (adapter.Path file))
          (adapter.Content file) w in
      match r with
      | Err err => (Some (Wrapf "failed to upload file to OpenWebUI: %w" [] err), (m, w))
      | Ok uploadedFile =>
          let knowledgeID := or_default (adapter.KnowledgeID file) m in
          let '(r, w) :=
            if strne knowledgeID "" then
              client_AddFileToKnowledge ctx knowledgeID (openwebui.ID uploadedFile) w
            else (None, w) in
          match r with
          | Some err => (Some (Wrapf "failed to add file to knowledge: %w" [] err), (m, w))
          | None =>
              let changed :=
                match existing with
                | None => true
                | Some e => strne (Hash e) (adapter.Hash file)
                end in
              if changed then
                let key := filepath.Base (adapter.Path file) in
                let idx :=
                  match existing with
                  | Some e =>
                      if streq matchReason "hash" && strne (Path e) (adapter.Path file)
                      then delete (filepath.Base (Path e)) (fileIndex m)
                      else fileIndex m
                  | None => fileIndex m
                  end in
                let '(t, w) := time_Now w in
                let entry :=
                  {| Path := adapter.Path file; Hash := adapter.Hash file;
                     FileID := openwebui.ID uploadedFile; Source := source;
                     KnowledgeID := knowledgeID; SyncedAt := t;
                     Modified := adapter.Modified file |} in
                (None, (with_fileIndex m (<[key := entry]> idx), w))
              else (None, (m, w))
          end
      end
  end.

(** [syncFile] *)
Definition syncFile (ctx : Context) (file : adapter.File) (source : string)
    (st : State) : option error * State :=
  let '(m, w) := st in
  let filename := filepath.Base (adapter.Path file) in
  let '(existing, matchReason, w) := find_existing filename (adapter.Hash file) m w in
  match existing with
  | None => upload_and_index ctx file source None matchReason (m, w)
  | Some e =>
      (* Check if it's the same content *)
      if streq (Hash e) (adapter.Hash file) then (None, (m, w))
      else
        let fileKnowledgeID := or_default (adapter.KnowledgeID file) m in
        let existingKnowledgeID := or_default (KnowledgeID e) m in
        if streq existingKnowledgeID fileKnowledgeID then
          let unchanged :=
            if streq (Source e) "openwebui" then false
            else streq (Hash e) (adapter.Hash file) in
          if unchanged then (None, (m, w))
          else
            let w :=
              if strne fileKnowledgeID "" && strne (FileID e) "" then
                (* the removal's error is logged and dropped *)
                snd (client_RemoveFileFromKnowledge ctx fileKnowledgeID (FileID e) w)
              else w in
            upload_and_index ctx file source (Some e) matchReason (m, w)
        else
          upload_and_index ctx file source (Some e) matchReason (m, w)
  end.

(** The first loop of [cleanupOrphanedFiles]: which keys are orphaned. *)
Definition is_orphan (currentFiles : gset string) (fileKey : string)
    (metadata : FileMetadata) : bool :=
  let filename := filepath.Base (Path metadata) in
  let filename := if streq filename "" then filepath.Base fileKey else filename in
  negb (bool_decide (filename ∈ currentFiles))
  && streq (Source metadata) "openwebui"
  && strne (FileID metadata) "".

Definition collect_orphans (currentFiles : gset string)
    (entries : list (string * FileMetadata)) : list string :=
  fst <$> filter (fun kv => is_orphan currentFiles (fst kv) (snd kv) = true) entries.

(** The second loop of [cleanupOrphanedFiles]. A key that is not in the
    index yields a nil [metadata], whose first field access panics. *)
Fixpoint remove_orphans (ctx : Context) (orphanedFiles : list string) (st : State)
  : outcome * State :=
  match orphanedFiles with
  | [] => (Returned None, st)
  | fileKey :: rest =>
      let '(m, w) := st in
      match fileIndex m !! fileKey with
      | None => (Panicked, st)
      | Some metadata =>
          let knowledgeID := or_default (KnowledgeID metadata) m in
          let w :=
            if strne knowledgeID "" && strne (FileID metadata) "" then
              (* the removal's error is logged and dropped *)
              snd (client_RemoveFileFromKnowledge ctx knowledgeID (FileID metadata) w)
            else w in
          remove_orphans ctx rest (with_fileIndex m (delete fileKey (fileIndex m)), w)
      end
  end.

(** [cleanupOrphanedFiles] *)
Definition cleanupOrphanedFiles (ctx : Context) (currentFiles : gset string)
    (st : State) : outcome * State :=
  let '(m, w) := st in
  let '(entries, w) := range_fileIndex m w in
  let orphanedFiles := collect_orphans currentFiles entries in
  match orphanedFiles with
  | [] => (Returned None, (m, w))
  | _ => remove_orphans ctx orphanedFiles (m, w)
  end.

(** The loop over the files of one adapter in [SyncFiles]; a failed
    [syncFile] is logged and the loop goes on. *)
Fixpoint sync_files (ctx : Context) (source : string) (files : list adapter.File)
    (currentFiles : gset string) (st : State) : gset string * State :=
  match files with
  | [] => (currentFiles, st)
  | file :: rest =>
      let filename := filepath.Base (adapter.Path file) in
      let currentFiles := {[filename]} ∪ currentFiles in
      let '(_, st) := syncFile ctx file source st in
      sync_files ctx source rest currentFiles st
  end.

(** The loop over the adapters in [SyncFiles]. *)
Fixpoint sync_adapters (ctx : Context) (adapters : list adapter.Adapter)
    (currentFiles : gset string) (st : State)
  : list adapter.Adapter * gset string * State :=
  match adapters with
  | [] => ([], currentFiles, st)
  | adpt :: rest =>
      match adapter.FetchFiles adpt ctx with
      | Err _ =>
          let '(rest, currentFiles, st) := sync_adapters ctx rest currentFiles st in
          (adpt :: rest, currentFiles, st)
      | Ok files =>
          let '(currentFiles, (m, w)) :=
            sync_files ctx (adapter.Name adpt) files currentFiles st in
          let '(t, w) := time_Now w in
          let adpt := adapter.SetLastSync t adpt in
          let '(rest, currentFiles, st) := sync_adapters ctx rest currentFiles (m, w) in
          (adpt :: rest, currentFiles, st)
      end
  end.

(** [SyncFiles]; besides its result, the adapters as [SetLastSync] left
    them. *)
Definition SyncFiles (ctx : Context) (adapters : list adapter.Adapter) (st : State)
  : outcome * list adapter.Adapter * State :=
  let '(m, w) := st in
  (* the listing is for the debug log; its error is logged and dropped *)
  let '(_, w) := client_ListKnowledge ctx w in
  let '(adapters, currentFiles, st) := sync_adapters ctx adapters ∅ (m, w) in
  let '(r, (m, w)) := cleanupOrphanedFiles ctx currentFiles st in
  match r with
  | Panicked => (Panicked, adapters, (m, w))
  | Returned _ =>
      (* an error of the cleanup is logged and dropped *)
      let '(_, w) := saveFileIndex m w in
      (* an error of the save is logged and dropped *)
      (Returned None, adapters, (m, w))
  end.

End Manager.

End sync.

(** ** package mocks: the test doubles of the repository *)

Module mocks.

(** [MockOpenWebUIClient]: each method calls its [...Func] field when set and
    answers with a fixed success otherwise. *)
Record MockOpenWebUIClient : Type := {
  UploadFileFunc :
    option (Context -> string -> list Byte.byte -> result openwebui.File);
  ListKnowledgeFunc : option (Context -> result (list openwebui.Knowledge));
  AddFileToKnowledgeFunc : option (Context -> string -> string -> option error);
  RemoveFileFromKnowledgeFunc : option (Context -> string -> string -> option error);
  GetKnowledgeFilesFunc : option (Context -> string -> result (list openwebui.File))
}.

Definition mock_file (id filename hash status path : string) : openwebui.File :=
  {| openwebui.ID := id; openwebui.Hash := hash; openwebui.Filename := filename;
     openwebui.Data_Status := status; openwebui.Meta_Name := filename;
     openwebui.CreatedAt := 0; openwebui.UpdatedAt := 0; openwebui.Path := path |}.

Definition Mock_UploadFile (ctx : Context) (filename : string)
    (content : list Byte.byte) (m : MockOpenWebUIClient)
  : result openwebui.File * MockOpenWebUIClient :=
  match UploadFileFunc m with
  | Some f => (f ctx filename content, m)
  | None =>
      (Ok (mock_file "mock-file-id" filename "mock-hash" "pending"
             ("/app/backend/data/uploads/mock-file-id_" ++ filename)), m)
  end.

Definition Mock_ListKnowledge (ctx : Context) (m : MockOpenWebUIClient)
  : result (list openwebui.Knowledge) * MockOpenWebUIClient :=
  match ListKnowledgeFunc m with
  | Some f => (f ctx, m)
  | None =>
      (Ok [ {| openwebui.KID := "mock-knowledge-id";
               openwebui.KName := "Test Knowledge";
               openwebui.KDescription := "Mock knowledge base";
               openwebui.KFiles := [] |} ], m)
  end.

Definition Mock_AddFileToKnowledge (ctx : Context) (knowledgeID fileID : string)
    (m : MockOpenWebUIClient) : option error * MockOpenWebUIClient :=
  match AddFileToKnowledgeFunc m with
  | Some f => (f ctx knowledgeID fileID, m)
  | None => (None, m)
  end.

Definition Mock_RemoveFileFromKnowledge (ctx : Context) (knowledgeID fileID : string)
    (m : MockOpenWebUIClient) : option error * MockOpenWebUIClient :=
  match RemoveFileFromKnowledgeFunc m with
  | Some f => (f ctx knowledgeID fileID, m)
  | None => (None, m)
  end.

Definition Mock_GetKnowledgeFiles (ctx : Context) (knowledgeID : string)
    (m : MockOpenWebUIClient) : result (list openwebui.File) * MockOpenWebUIClient :=
  match GetKnowledgeFilesFunc m with
  | Some f => (f ctx knowledgeID, m)
  | None =>
      (Ok [ mock_file "existing-file-1" "existing-file-1.md" "existing-hash-1"
              "processed" "existing-file-1.md" ], m)
  end.

#[global] Instance Mock_ClientInterface
  : openwebui.ClientInterface MockOpenWebUIClient := {
  openwebui.UploadFile := Mock_UploadFile;
  openwebui.ListKnowledge := Mock_ListKnowledge;
  openwebui.AddFileToKnowledge := Mock_AddFileToKnowledge;
  openwebui.RemoveFileFromKnowledge := Mock_RemoveFileFromKnowledge;
  openwebui.GetKnowledgeFiles := Mock_GetKnowledgeFiles
}.

(** The mock with no function set. *)
Definition default_mock : MockOpenWebUIClient :=
  {| UploadFileFunc := None; ListKnowledgeFunc := None;
     AddFileToKnowledgeFunc := None; RemoveFileFromKnowledgeFunc := None;
     GetKnowledgeFilesFunc := None |}.

(** [MockAdapter] with [NameFunc] and [FetchFilesFunc] set. *)
Definition MockAdapter (name : string) (fetch : result (list adapter.File))
  : adapter.Adapter :=
  {| adapter.Name := name; adapter.FetchFiles := fun _ => fetch;
     adapter.GetLastSync := 0 |}.

End mocks.

(** ** Fixtures for the examples *)

Module fixtures.

(** A runtime whose [range] follows the map's own enumeration and whose
    paths are joined with slashes. *)
Definition rt : sync.GoRuntime :=
  {| sync.filepath_Join := fun elems => String.concat "/" elems;
     sync.filepath_Dir := fun path => path ++ "/..";
     sync.json_MarshalIndent := fun _ => Ok [];
     sync.map_range := fun _ m => map_to_list m |}.

(** A disk on which every operation succeeds. *)
Definition good_disk : sync.Disk :=
  {| sync.files := ∅; sync.mkdir_err := fun _ => None;
     sync.write_err := fun _ => None |}.

(** A disk on which no file can be written. *)
Definition readonly_disk : sync.Disk :=
  {| sync.files := ∅; sync.mkdir_err := fun _ => None;
     sync.write_err := fun _ => Some (errors_New "read-only file system") |}.

Definition world {C} (c : C) (d : sync.Disk) : sync.World C :=
  {| sync.openwebuiClient := c; sync.calls := []; sync.disk := d;
     sync.clock := 1000; sync.rangeSeed := 0 |}.

Definition manager (fallback : string) (idx : gmap string sync.FileMetadata)
  : sync.Manager :=
  {| sync.storagePath := "/data"; sync.knowledgeID := fallback;
     sync.fileIndex := idx; sync.indexPath := "/data/file_index.json" |}.

Definition entry (path hash fileID source kid : string) : sync.FileMetadata :=
  {| sync.Path := path; sync.Hash := hash; sync.FileID := fileID;
     sync.Source := source; sync.KnowledgeID := kid;
     sync.SyncedAt := 0; sync.Modified := 0 |}.

Definition file (path hash kid : string) : adapter.File :=
  {| adapter.Path := path; adapter.Content := []; adapter.Hash := hash;
     adapter.Modified := 0; adapter.Size := 0; adapter.Source := "github";
     adapter.KnowledgeID := kid |}.

(** A mock whose uploads are issued the ID ["id-" ++ filename], already
    processed. *)
Definition naming_mock : mocks.MockOpenWebUIClient :=
  {| mocks.UploadFileFunc :=
       Some (fun _ filename _ =>
               Ok (mocks.mock_file ("id-" ++ filename) filename "" "processed" ""));
     mocks.ListKnowledgeFunc := None;
     mocks.AddFileToKnowledgeFunc := None;
     mocks.RemoveFileFromKnowledgeFunc := None;
     mocks.GetKnowledgeFilesFunc := None |}.

(** As [naming_mock], but attaching fails. *)
Definition no_attach_mock : mocks.MockOpenWebUIClient :=
  {| mocks.UploadFileFunc := mocks.UploadFileFunc naming_mock;
     mocks.ListKnowledgeFunc := None;
     mocks.AddFileToKnowledgeFunc :=
       Some (fun _ _ _ => Some (errors_New "add file to knowledge failed with status 500"));
     mocks.RemoveFileFromKnowledgeFunc := None;
     mocks.GetKnowledgeFilesFunc := None |}.

(** Scenario S4: [README.md] is indexed in knowledge base K1 and now
    reported, with the same content, for K2. *)
Definition s4_index : gmap string sync.FileMetadata :=
  {[ "README.md" := entry "a/README.md" "h1" "f1" "github" "K1" ]}.

Definition s4_file : adapter.File := file "a/README.md" "h1" "K2".

(** Scenario S5: [README.md] is indexed and now reported, with the same
    content, as [GUIDE.md]. *)
Definition s5_index : gmap string sync.FileMetadata :=
  {[ "README.md" := entry "README.md" "h1" "f1" "github" "K1" ]}.

Definition s5_file : adapter.File := file "GUIDE.md" "h1" "K1".

(** A disk on which only the index file cannot be written. *)
Definition index_locked_disk : sync.Disk :=
  {| sync.files := ∅; sync.mkdir_err := fun _ => None;
     sync.write_err := fun name =>
       if streq name "/data/file_index.json"
       then Some (errors_New "permission denied") else None |}.

(** Scenario S1: one adapter reporting [a/README.md] for K1. *)
Definition s1_adapters : list adapter.Adapter :=
  [ mocks.MockAdapter "github" (Ok [file "a/README.md" "h1" "K1"]) ].

(** An outage: [github] cannot fetch while [local] reports one file. *)
Definition outage_adapters : list adapter.Adapter :=
  [ mocks.MockAdapter "github" (Err (errors_New "503 Service Unavailable"));
    mocks.MockAdapter "local" (Ok [file "notes.md" "h9" "K1"]) ].

Definition outage_index : gmap string sync.FileMetadata :=
  {[ "README.md" := entry "README.md" "h1" "f1" "github" "K1" ]}.

(** Scenario S6: [gone.md] came from the re-import and is reported by no
    adapter; [kept.md] was synced from an adapter. *)
Definition s6_index : gmap string sync.FileMetadata :=
  {[ "gone.md" := entry "gone.md" "hx" "f7" "openwebui" "K1";
     "kept.md" := entry "kept.md" "hy" "f8" "github" "K1" ]}.

(** As [gone.md] of S6, but with no knowledge base recorded. *)
Definition unbound_index : gmap string sync.FileMetadata :=
  {[ "gone.md" := entry "gone.md" "hx" "f7" "openwebui" "" ]}.

(** Two files of one adapter with the same base name and different content. *)
Definition collision_adapters : list adapter.Adapter :=
  [ mocks.MockAdapter "github"
      (Ok [file "a/x.md" "h1" "K1"; file "b/x.md" "h2" "K1"]) ].

(** *** The HTTP client *)

Definition url_ok : string -> option error := fun _ => None.

(** A decoder for services whose response body is just the ingestion status
    of the artifact ["f1"]. *)
Definition status_decoder (body : string) : result openwebui.File :=
  Ok (mocks.mock_file "f1" "README.md" "" body "").

Definition client_of (respond : nat -> Z -> openwebui.Request -> result openwebui.Response)
  : openwebui.Client :=
  {| openwebui.baseURL := "http://openwebui:8080"; openwebui.apiKey := "key";
     openwebui.client :=
       {| openwebui.now := 0; openwebui.sent := 0;
          openwebui.respond := respond; openwebui.log := [] |} |}.

Definition respond_with (code : Z) (body : string) : result openwebui.Response :=
  Ok {| openwebui.StatusCode := code; openwebui.RespBody := Ok body |}.

(** Ingestion that is pending for three probes and processed at the fourth. *)
Definition slow_service : nat -> Z -> openwebui.Request -> result openwebui.Response :=
  fun n _ _ => respond_with 200 (if (n <? 3)%nat then "pending" else "processed").

(** A service in trouble: every request is answered with status 500. *)
Definition broken_service : nat -> Z -> openwebui.Request -> result openwebui.Response :=
  fun _ _ _ => respond_with 500 "Internal Server Error".

(** A service that does not know the file. *)
Definition forgetful_service : nat -> Z -> openwebui.Request -> result openwebui.Response :=
  fun _ _ _ => respond_with 404 "Not Found".

(** A context cancelled one second after the start of the clock. *)
Definition cancelled_after_1s : Context := {| cancelAt := Some (1 * Second) |}.

End fixtures.
(** ** Vocabulary of the properties *)

Module props.

(** The entry [syncFile] writes for [file] once it is uploaded as [uploaded]
    at instant [t]. *)
Definition written_entry (m : sync.Manager) (file : adapter.File) (source : string)
    (uploaded : openwebui.File) (t : Z) : sync.FileMetadata :=
  {| sync.Path := adapter.Path file; sync.Hash := adapter.Hash file;
     sync.FileID := openwebui.ID uploaded; sync.Source := source;
     sync.KnowledgeID := sync.or_default (adapter.KnowledgeID file) m;
     sync.SyncedAt := t; sync.Modified := adapter.Modified file |}.

(** The effective knowledge base of an index entry. *)
Definition entry_knowledge (m : sync.Manager) (e : sync.FileMetadata) : string :=
  sync.or_default (sync.KnowledgeID e) m.

(** The effective target knowledge base of a file. *)
Definition file_knowledge (m : sync.Manager) (file : adapter.File) : string :=
  sync.or_default (adapter.KnowledgeID file) m.

Definition is_upload (c : sync.Call) : bool :=
  match c with sync.CallUploadFile _ _ _ => true | _ => false end.

Definition is_attach (c : sync.Call) : bool :=
  match c with sync.CallAddFileToKnowledge _ _ _ => true | _ => false end.

Definition is_detach (c : sync.Call) : bool :=
  match c with sync.CallRemoveFileFromKnowledge _ _ _ => true | _ => false end.

(** The call returned no error. *)
Definition succeeded (c : sync.Call) : bool :=
  match c with
  | sync.CallUploadFile _ _ r => is_ok r
  | sync.CallListKnowledge r => is_ok r
  | sync.CallAddFileToKnowledge _ _ None => true
  | sync.CallRemoveFileFromKnowledge _ _ None => true
  | _ => false
  end.

(** How many calls of a log satisfy [p]. *)
Definition count (p : sync.Call -> bool) (l : list sync.Call) : nat :=
  length (List.filter p l).

(** The files the adapters report in a cycle: those of every adapter whose
    [FetchFiles] succeeds, in order. *)
Fixpoint fetched (ctx : Context) (adapters : list adapter.Adapter) : list adapter.File :=
  match adapters with
  | [] => []
  | adpt :: rest =>
      match adapter.FetchFiles adpt ctx with
      | Ok files => files ++ fetched ctx rest
      | Err _ => fetched ctx rest
      end
  end.

(** The base names reported in a cycle. *)
Definition reported (ctx : Context) (adapters : list adapter.Adapter) : gset string :=
  list_to_set ((fun f => filepath.Base (adapter.Path f)) <$> fetched ctx adapters).

(** The orphan condition of the specification. *)
Definition orphan (present : gset string) (e : sync.FileMetadata) : Prop :=
(filepath.Base (sync.Path e) ∉ present) /\ sync.Source e = "openwebui"
  /\ sync.FileID e <> "".

(** [file] is covered by the index: the entry under its base name carries its
    fingerprint, or there is none there and some entry carries it. *)
Definition covered (idx : gmap string sync.FileMetadata) (file : adapter.File) : Prop :=
  match idx !! filepath.Base (adapter.Path file) with
  | Some e => sync.Hash e = adapter.Hash file
  | None => exists k e, idx !! k = Some e /\ sync.Hash e = adapter.Hash file
  end.

(** *** The ingestion wait *)

(** The schedule of [waitForFileProcessing], one delay per probe. *)
Definition flat_schedule : list Z :=
  flat_map (fun iv => replicate (openwebui.attempts iv) (openwebui.delay iv))
    openwebui.pollIntervals.

(** The instants of the probes of a wait started at [t] that sleeps the
    delays [ds] between them. *)
Fixpoint offsets_from (t : Z) (ds : list Z) : list Z :=
  match ds with
  | [] => []
  | d :: ds' => t :: offsets_from (t + d) ds'
  end.

(** The probes of a run: instant and result of each [GetFile]. *)
Definition probes (evs : list openwebui.Event) : list (Z * result openwebui.File) :=
  omap (fun ev => match ev with
                  | openwebui.EvProbe t _ r => Some (t, r)
                  | _ => None
                  end) evs.

(** What a probe tells the wait. *)
Inductive verdict : Type :=
| Ready
| Failed (status : string)
| Pending.

Definition classify (r : result openwebui.File) : verdict :=
  match r with
  | Err _ => Pending
  | Ok file =>
      let st := openwebui.Data_Status file in
      if streq st "processed" || streq st "completed" || streq st "" then Ready
      else if streq st "error" || streq st "failed" then Failed st
      else Pending
  end.

(** The two nested loops of [waitForFileProcessing] as one loop over the
    delays. *)
Fixpoint poll_flat (url_Parse : string -> option error)
    (json_Unmarshal_File : string -> result openwebui.File)
    (ctx : Context) (fileID : string) (startTime : Z)
    (ds : list Z) (attempt : nat) (c : openwebui.Client)
  : option (option error) * nat * openwebui.Client :=
  match ds with
  | [] => (None, attempt, c)
  | d :: ds' =>
      let attempt := S attempt in
      let '(r, c) :=
        openwebui.poll_once url_Parse json_Unmarshal_File ctx fileID startTime d attempt c in
      match r with
      | Some ret => (Some ret, attempt, c)
      | None => poll_flat url_Parse json_Unmarshal_File ctx fileID startTime ds' attempt c
      end
  end.

(** The probes [ps] of a run of the loops over [n] delays that ended with
    [r]: all pending when the loops ran out ([None]); else all pending but the
    last one, which decided the return value. *)
Definition wait_shape (ps : list (Z * result openwebui.File)) (n : nat)
    (r : option (option error)) : Prop :=
  match r with
  | None => length ps = n /\ Forall (fun q => classify (snd q) = Pending) ps
  | Some ret =>
      exists (pre : list (Z * result openwebui.File)) q,
        ps = (pre ++ [q])%list /\ (length pre < n)%nat /\
        Forall (fun q => classify (snd q) = Pending) pre /\
        match ret with
        | None => classify (snd q) = Ready
        | Some e =>
            exists st dur,
              classify (snd q) = Failed st /\
              e = Errorf "file processing failed with status: %s after %v"
                    [AString st; ADuration dur]
        end
  end.

(** Some sleep of the run went on after the context was cancelled. *)
Definition slept_through_cancel (ctx : Context) (evs : list openwebui.Event) : bool :=
  existsb (fun ev =>
             match ev, cancelAt ctx with
             | openwebui.EvSleep t0 t1, Some t => (t0 <? t1) && (t <? t1)
             | openwebui.EvTimer t0 t1 _, Some t => (t0 <? t1) && (t <? t1)
             | _, _ => false
             end) evs.

End props.

(** ** package sync, continued: the startup re-import *)

Module startup.

Section Startup.

Context {C : Type} `{CI : openwebui.ClientInterface C}.
Variable rt : sync.GoRuntime.

(** The order in which [for knowledgeID := range knowledgeIDs] visits the set
    of knowledge IDs on the [n]-th [range] loop of the process. *)
Variable set_range : nat -> gset string -> list string.

(** [SetKnowledgeID] *)
Definition SetKnowledgeID (knowledgeID : string) (m : sync.Manager) : sync.Manager :=
  {| sync.storagePath := sync.storagePath m; sync.knowledgeID := knowledgeID;
     sync.fileIndex := sync.fileIndex m; sync.indexPath := sync.indexPath m |}.

(** [time.Unix(sec, 0)] on the clock of this development. *)
Definition time_Unix (sec : Z) : Z := sec * Second.

(** The inner loop of "Collect knowledge IDs from adapters". *)
Definition file_knowledge_ids (files : list adapter.File) (knowledgeIDs : gset string)
  : gset string :=
  foldl (fun ids file =>
           if strne (adapter.KnowledgeID file) ""
           then {[adapter.KnowledgeID file]} ∪ ids else ids)
    knowledgeIDs files.

(** "Collect knowledge IDs from adapters"; an adapter that cannot fetch is
    skipped. *)
Fixpoint adapter_knowledge_ids (ctx : Context) (adapters : list adapter.Adapter)
    (knowledgeIDs : gset string) : gset string :=
  match adapters with
  | [] => knowledgeIDs
  | adpt :: rest =>
      match adapter.FetchFiles adpt ctx with
      | Err _ => adapter_knowledge_ids ctx rest knowledgeIDs
      | Ok files => adapter_knowledge_ids ctx rest (file_knowledge_ids files knowledgeIDs)
      end
  end.

(** The key and the metadata made for one file listed in [knowledgeID]. *)
Definition imported_entry (knowledgeID : string) (file : openwebui.File)
  : string * sync.FileMetadata :=
  let filePath :=
    if streq (openwebui.Path file) "" then openwebui.Meta_Name file
    else openwebui.Path file in
  let fileKey := filePath in
  let fileHash :=
    if strne (openwebui.Hash file) "" then openwebui.Hash file else openwebui.ID file in
  (fileKey,
   {| sync.Path := filePath; sync.Hash := fileHash; sync.FileID := openwebui.ID file;
      sync.Source := "openwebui"; sync.KnowledgeID := knowledgeID;
      sync.SyncedAt := time_Unix (openwebui.CreatedAt file);
      sync.Modified := time_Unix (openwebui.UpdatedAt file) |}).

(** "Add files to new index" *)
Definition add_files (knowledgeID : string) (files : list openwebui.File)
    (newFileIndex : gmap string sync.FileMetadata) : gmap string sync.FileMetadata :=
  foldl (fun idx file =>
           <[fst (imported_entry knowledgeID file) := snd (imported_entry knowledgeID file)]> idx)
    newFileIndex files.

(** "Initialize file index for each knowledge base"; a listing that fails is
    logged and skipped. Besides the new index and the client, the listings
    made, with their results, oldest first. *)
Fixpoint import_knowledge (ctx : Context) (knowledgeIDs : list string)
    (newFileIndex : gmap string sync.FileMetadata) (c : C)
  : gmap string sync.FileMetadata * C * list (string * result (list openwebui.File)) :=
  match knowledgeIDs with
  | [] => (newFileIndex, c, [])
  | knowledgeID :: rest =>
      let '(r, c) := openwebui.GetKnowledgeFiles ctx knowledgeID c in
      let newFileIndex :=
        match r with
        | Err _ => newFileIndex
        | Ok files => add_files knowledgeID files newFileIndex
        end in
      let '(idx, c, listings) := import_knowledge ctx rest newFileIndex c in
      (idx, c, (knowledgeID, r) :: listings)
  end.

(** [InitializeFileIndex]; besides its result, the listings it made. *)
Definition InitializeFileIndex (ctx : Context) (adapters : list adapter.Adapter)
    (st : sync.Manager * sync.World C)
  : option error * (sync.Manager * sync.World C)
    * list (string * result (list openwebui.File)) :=
  let '(m, w) := st in
  let knowledgeIDs : gset string :=
    if strne (sync.knowledgeID m) "" then {[sync.knowledgeID m]} else ∅ in
  let knowledgeIDs := adapter_knowledge_ids ctx adapters knowledgeIDs in
  if (size knowledgeIDs =? 0)%nat then (None, (m, w), [])
  else
    let order := set_range (sync.rangeSeed w) knowledgeIDs in
    let '(newFileIndex, c, listings) :=
      import_knowledge ctx order ∅ (sync.openwebuiClient w) in
    (* Replace the old file index with the new one *)
    let m := sync.with_fileIndex m newFileIndex in
    let w :=
      {| sync.openwebuiClient := c; sync.calls := sync.calls w; sync.disk := sync.disk w;
         sync.clock := sync.clock w; sync.rangeSeed := S (sync.rangeSeed w) |} in
    (* an error of the save is logged and dropped *)
    let '(_, w) := sync.saveFileIndex rt m w in
    (None, (m, w), listings).

End Startup.

End startup.

(** ** package scheduler *)

Module scheduler.

Section Scheduler.

Context {C : Type} `{CI : openwebui.ClientInterface C}.
Variable rt : sync.GoRuntime.

(** [context.WithTimeout(context.Background(), d)] made at instant [now]. *)
Definition WithTimeout (now d : Z) : Context := {| cancelAt := Some (now + d) |}.

(** [Scheduler.RunSync]: one cycle over the scheduler's adapters under a
    timeout of thirty minutes. *)
Definition RunSync (adapters : list adapter.Adapter) (st : sync.Manager * sync.World C)
  : sync.outcome * list adapter.Adapter * (sync.Manager * sync.World C) :=
  let ctx := WithTimeout (sync.clock (snd st)) (30 * Minute) in
  sync.SyncFiles rt ctx adapters st.

End Scheduler.

End scheduler.

(** ** Further vocabulary and fixtures *)

Module xprops.

(** The request [UploadFile] sends. *)
Definition upload_request (c : openwebui.Client) (filename : string)
    (content : list Byte.byte) : openwebui.Request :=
  openwebui.authorize c
    {| openwebui.Method := "POST";
       openwebui.URL := openwebui.baseURL c ++ "/api/v1/files/";
       openwebui.ContentType := Some "multipart/form-data";
       openwebui.Authorization := None;
       openwebui.Body := openwebui.MultipartBody "file" filename content |}.

(** The sleeps and timers of a run, as waits of a duration. *)
Definition slept (evs : list openwebui.Event) : Z :=
  foldr (fun ev acc =>
           match ev with
           | openwebui.EvSleep t0 t1 => (t1 - t0) + acc
           | openwebui.EvTimer t0 t1 _ => (t1 - t0) + acc
           | _ => acc
           end) 0 evs.

(** The sum of the delays of a schedule. *)
Definition total_delay (ds : list Z) : Z := foldr Z.add 0 ds.

(** The [range] over the set of knowledge IDs visits each of them once. *)
Definition set_range_enumerates (set_range : nat -> gset string -> list string) : Prop :=
  forall n (ids : gset string), set_range n ids ≡ₚ elements ids.

(** The knowledge IDs the startup re-import collects. *)
Definition startup_ids (ctx : Context) (adapters : list adapter.Adapter)
    (m : sync.Manager) : gset string :=
  startup.adapter_knowledge_ids ctx adapters
    (if strne (sync.knowledgeID m) "" then {[sync.knowledgeID m]} else ∅).

End xprops.

Module xfixtures.

(** A service that lists one knowledge base, K1, holding [old.md]. *)
Definition listing_mock : mocks.MockOpenWebUIClient :=
  {| mocks.UploadFileFunc := mocks.UploadFileFunc fixtures.naming_mock;
     mocks.ListKnowledgeFunc := None;
     mocks.AddFileToKnowledgeFunc := None;
     mocks.RemoveFileFromKnowledgeFunc := None;
     mocks.GetKnowledgeFilesFunc :=
       Some (fun _ knowledgeID =>
               if streq knowledgeID "K1"
               then Ok [mocks.mock_file "f-old" "old.md" "" "processed" "old.md"]
               else Ok []) |}.

(** A service that is down: listings and uploads fail, detaches fail. *)
Definition down_mock : mocks.MockOpenWebUIClient :=
  {| mocks.UploadFileFunc := Some (fun _ _ _ => Err (errors_New "connection refused"));
     mocks.ListKnowledgeFunc := Some (fun _ => Err (errors_New "connection refused"));
     mocks.AddFileToKnowledgeFunc := Some (fun _ _ _ => Some (errors_New "connection refused"));
     mocks.RemoveFileFromKnowledgeFunc :=
       Some (fun _ _ _ => Some (errors_New "connection refused"));
     mocks.GetKnowledgeFilesFunc := Some (fun _ _ => Err (errors_New "connection refused")) |}.

(** A service that stores uploads and attaches them but fails every detach. *)
Definition no_detach_mock : mocks.MockOpenWebUIClient :=
  {| mocks.UploadFileFunc := mocks.UploadFileFunc fixtures.naming_mock;
     mocks.ListKnowledgeFunc := None;
     mocks.AddFileToKnowledgeFunc := None;
     mocks.RemoveFileFromKnowledgeFunc :=
       Some (fun _ _ _ => Some (errors_New "remove file from knowledge failed with status 500"));
     mocks.GetKnowledgeFilesFunc := None |}.

Definition sorted_ids : nat -> gset string -> list string := fun _ ids => elements ids.

(** Scenario S3: [README.md] indexed in K1 with fingerprint h1, now reported
    with fingerprint h2. *)
Definition s3_index : gmap string sync.FileMetadata :=
  {[ "README.md" := fixtures.entry "README.md" "h1" "f1" "github" "K1" ]}.

Definition s3_file : adapter.File := fixtures.file "README.md" "h2" "K1".

(** A file for another knowledge base with changed content. *)
Definition moved_file : adapter.File := fixtures.file "README.md" "h2" "K2".

(** A file with no knowledge base. *)
Definition unbound_file : adapter.File := fixtures.file "notes/todo.md" "h5" "".

(** An accepted upload whose ingestion never finishes within the schedule:
    the POST is answered with a pending artifact, every probe with pending. *)
Definition stuck_service : nat -> Z -> openwebui.Request -> result openwebui.Response :=
  fun _ _ _ => fixtures.respond_with 200 "pending".

(** A service that answers every request with 201 and an empty body. *)
Definition created_service : nat -> Z -> openwebui.Request -> result openwebui.Response :=
  fun _ _ _ => fixtures.respond_with 201 "".

(** A decoder for listings: whatever the body, K1 holding one file. *)
Definition k1_decoder (body : string) : result (list openwebui.Knowledge) :=
  Ok [ {| openwebui.KID := "K1"; openwebui.KName := "docs";
          openwebui.KDescription := "";
          openwebui.KFiles := [mocks.mock_file "f1" "README.md" "" "processed" ""] |} ].

(** A context cancelled three seconds after the start of the clock. *)
Definition cancelled_after_3s : Context := {| cancelAt := Some (3 * Second) |}.

End xfixtures.

(** * Properties

    ** Strings and paths *)

Local Open Scope list_scope.
Local Set Warnings "-clear-no-such-hyp".

Lemma streq_true a b : streq a b = true <-> a = b.
Proof. unfold streq. apply bool_decide_eq_true. Qed.

Lemma streq_false a b : streq a b = false <-> a <> b.
Proof. unfold streq. apply bool_decide_eq_false. Qed.

Lemma strne_true a b : strne a b = true <-> a <> b.
Proof. unfold strne. rewrite negb_true_iff. apply streq_false. Qed.

Lemma strne_false a b : strne a b = false <-> a = b.
Proof. unfold strne. rewrite negb_false_iff. apply streq_true. Qed.

Lemma streq_refl a : streq a a = true.
Proof. by apply streq_true. Qed.

Example Base_nested : filepath.Base "a/README.md" = "README.md".
Proof. reflexivity. Qed.

Example Base_plain : filepath.Base "README.md" = "README.md".
Proof. reflexivity. Qed.

Example Base_trailing : filepath.Base "docs/guide//" = "guide".
Proof. reflexivity. Qed.

Example Base_empty : filepath.Base "" = ".".
Proof. reflexivity. Qed.

Example Base_root : filepath.Base "///" = "/".
Proof. reflexivity. Qed.

Lemma Base_nonempty path : filepath.Base path <> "".
Proof.
  unfold filepath.Base. destruct path as [|c s]; [discriminate|].
  destruct (rev _) as [|a l]; [discriminate|]. simpl. discriminate.
Qed.

(** ** The per-file sync *)

Ltac unfold_sync :=
  unfold sync.syncFile, sync.find_existing, sync.upload_and_index,
    sync.saveFileLocally, sync.client_UploadFile, sync.client_AddFileToKnowledge,
    sync.client_RemoveFileFromKnowledge, sync.range_fileIndex, sync.time_Now,
    sync.record_call, sync.with_disk, sync.with_fileIndex, sync.os_MkdirAll,
    sync.os_WriteFile in *.

Ltac string_facts :=
  repeat match goal with
    | H : streq _ _ = true |- _ => apply streq_true in H
    | H : streq _ _ = false |- _ => apply streq_false in H
    | H : strne _ _ = true |- _ => apply strne_true in H
    | H : strne _ _ = false |- _ => apply strne_false in H
    | H : _ && _ = true |- _ => apply andb_true_iff in H; destruct H
    end.

Ltac tail_eqs :=
  repeat match goal with
    | H : _ ++ [_] = _ ++ [_] |- _ => apply app_inj_tail in H; destruct H
    end.

Ltac length_absurd :=
  match goal with
  | H : sync.calls _ = _ ++ _ |- _ =>
      apply (f_equal length) in H; rewrite ?length_app in H; simpl in H; lia
  end.

Arguments sync.upload_and_index : simpl never.

(** The last elements of equal logs are equal. *)
Lemma last_two_inj {A} (l1 l2 : list A) a b c d :
  l1 ++ [a; b] = l2 ++ [c; d] -> a = c /\ b = d.
Proof.
  intros H. apply app_inj_2 in H as [_ H]; [|done]. by simplify_eq.
Qed.

Lemma last_one_of_two {A} (l1 l2 : list A) a c d :
  l1 ++ [a] = l2 ++ [c; d] -> a = d.
Proof.
  intros H. change (l2 ++ [c; d]) with (l2 ++ [c] ++ [d]) in H.
  rewrite app_assoc in H. by apply app_inj_tail in H as [_ H].
Qed.

Section SyncFileProperties.

Context {C : Type} `{CI : openwebui.ClientInterface C}.
Variable rt : sync.GoRuntime.

Implicit Types (m : sync.Manager) (w : sync.World C) (file : adapter.File).

(** A file found by hash has the file's hash. *)
Lemma find_existing_by_hash filename hash m w e reason w' :
  sync.find_existing rt filename hash m w = (Some e, reason, w') ->
  reason = "hash" -> sync.Hash e = hash.
Proof.
  unfold sync.find_existing, sync.range_fileIndex. intros Hf Hr.
  destruct (sync.fileIndex m !! filename); [simplify_eq|].
  destruct (find _ _) as [[k md]|] eqn:Hfind; simplify_eq.
  apply find_some in Hfind as [_ Hh]. by apply streq_true in Hh.
Qed.

(** The lookup changes nothing but the count of [range] loops, and it
    prefers the entry under the file name. *)
Lemma find_existing_frame filename hash m w existing reason w' :
  sync.find_existing rt filename hash m w = (existing, reason, w') ->
  sync.calls w' = sync.calls w /\ sync.disk w' = sync.disk w /\
  sync.openwebuiClient w' = sync.openwebuiClient w /\ sync.clock w' = sync.clock w /\
  (forall e, sync.fileIndex m !! filename = Some e -> existing = Some e /\ w' = w).
Proof.
  unfold sync.find_existing, sync.range_fileIndex. intros Hf.
  destruct (sync.fileIndex m !! filename) as [e0|].
  - simplify_eq. repeat split; try done; by simplify_eq.
  - destruct (find _ _) as [[k md]|]; simplify_eq; by repeat split.
Qed.

(** The tail of [syncFile], path by path: the local copy fails; the upload
    fails; the attach fails; or the file is uploaded, attached if it has a
    knowledge base, and recorded. It is entered only without an entry, or
    with one whose fingerprint differs and that was found by name. *)
Lemma upload_and_index_cases ctx file source existing reason m w r m' w' :
  (forall e, existing = Some e ->
     sync.Hash e <> adapter.Hash file /\ streq reason "hash" = false) ->
  sync.upload_and_index rt ctx file source existing reason (m, w) = (r, (m', w')) ->
  sync.write_err (sync.disk w') = sync.write_err (sync.disk w) /\
  sync.mkdir_err (sync.disk w') = sync.mkdir_err (sync.disk w) /\
  (forall p err, sync.write_err (sync.disk w) p = Some err ->
     sync.files (sync.disk w') !! p = sync.files (sync.disk w) !! p) /\
  ((exists err, r = Some (Wrapf "failed to save file locally: %w" [] err) /\
      m' = m /\ sync.calls w' = sync.calls w) \/
   (exists err, r = Some (Wrapf "failed to upload file to OpenWebUI: %w" [] err) /\
      m' = m /\
      sync.calls w' = sync.calls w ++
        [sync.CallUploadFile (filepath.Base (adapter.Path file))
           (adapter.Content file) (Err err)]) \/
   (exists uploaded err,
      r = Some (Wrapf "failed to add file to knowledge: %w" [] err) /\ m' = m /\
      sync.calls w' = sync.calls w ++
        [sync.CallUploadFile (filepath.Base (adapter.Path file))
           (adapter.Content file) (Ok uploaded);
         sync.CallAddFileToKnowledge (props.file_knowledge m file)
           (openwebui.ID uploaded) (Some err)]) \/
   (exists uploaded t, r = None /\
      m' = sync.with_fileIndex m
             (<[filepath.Base (adapter.Path file) :=
                  props.written_entry m file source uploaded t]> (sync.fileIndex m)) /\
      sync.calls w' = sync.calls w ++
        [sync.CallUploadFile (filepath.Base (adapter.Path file))
           (adapter.Content file) (Ok uploaded)] ++
        (if strne (props.file_knowledge m file) "" then
           [sync.CallAddFileToKnowledge (props.file_knowledge m file)
              (openwebui.ID uploaded) None]
         else []))).
Proof.
  intros Hdead Hu. unfold props.file_knowledge.
  assert (Hchanged : match existing with
                     | None => true
                     | Some e => strne (sync.Hash e) (adapter.Hash file)
                     end = true).
  { destruct existing as [e|]; [|done]. apply strne_true. by apply (Hdead e). }
  assert (Hidx : match existing with
                 | Some e =>
                     if streq reason "hash" && strne (sync.Path e) (adapter.Path file)
                     then delete (filepath.Base (sync.Path e)) (sync.fileIndex m)
                     else sync.fileIndex m
                 | None => sync.fileIndex m
                 end = sync.fileIndex m).
  { destruct existing as [e|]; [|done]. by destruct (Hdead e eq_refl) as [_ ->]. }
  unfold sync.upload_and_index in Hu. rewrite Hchanged, Hidx in Hu. clear Hchanged Hidx.
  unfold sync.saveFileLocally, sync.os_MkdirAll, sync.os_WriteFile in Hu.
  destruct (sync.mkdir_err (sync.disk w) _) as [e1|].
  { simplify_eq. repeat split; try done. left. by eexists. }
  destruct (sync.write_err (sync.disk w) _) as [e2|] eqn:Hwrite.
  { simplify_eq. repeat split; try done. left. by eexists. }
  cbn [sync.with_disk] in Hu. unfold sync.client_UploadFile in Hu.
  cbn [sync.openwebuiClient] in Hu.
  destruct (openwebui.UploadFile _ _ _ _) as [[uploaded|e3] c1].
  2:{ simplify_eq. cbn. repeat split; try done.
      - intros p err Hp. apply lookup_insert_ne. congruence.
      - right. left. by eexists. }
  destruct (strne (sync.or_default (adapter.KnowledgeID file) m) "") eqn:Hkb.
  - unfold sync.client_AddFileToKnowledge in Hu. cbn in Hu.
    destruct (openwebui.AddFileToKnowledge _ _ _ _) as [[e4|] c2].
    + simplify_eq. cbn. repeat split; try done.
      * intros p err Hp. apply lookup_insert_ne. congruence.
      * right. right. left. eexists _, _. repeat split. by rewrite <- app_assoc.
    + cbn in Hu. simplify_eq. cbn. repeat split; try done.
      * intros p err Hp. apply lookup_insert_ne. congruence.
      * right. right. right. eexists _, _. repeat split. by rewrite <- app_assoc.
  - cbn in Hu. simplify_eq. cbn. repeat split; try done.
    + intros p err Hp. apply lookup_insert_ne. congruence.
    + right. right. right. eexists _, _. by repeat split.
Qed.

(** [syncFile], path by path: the file is skipped; or the old artifact is
    detached when the entry is in the file's knowledge base ([pre]), and the
    tail of the function runs. *)
Lemma syncFile_cases ctx file source m w r m' w' :
  sync.syncFile rt ctx file source (m, w) = (r, (m', w')) ->
  (r = None /\ m' = m /\ sync.calls w' = sync.calls w /\ sync.disk w' = sync.disk w) \/
  (exists w1 existing reason (pre : list sync.Call),
      sync.calls w1 = sync.calls w ++ pre /\ sync.disk w1 = sync.disk w /\
      (forall e, existing = Some e ->
         sync.Hash e <> adapter.Hash file /\ streq reason "hash" = false) /\
      (forall e, sync.fileIndex m !! filepath.Base (adapter.Path file) = Some e ->
         existing = Some e) /\
      (pre = [] \/
       exists e res, existing = Some e /\
         props.entry_knowledge m e = props.file_knowledge m file /\
         pre = [sync.CallRemoveFileFromKnowledge (props.file_knowledge m file)
                  (sync.FileID e) res]) /\
      ((exists e, existing = Some e /\
          props.entry_knowledge m e <> props.file_knowledge m file) -> pre = []) /\
      sync.upload_and_index rt ctx file source existing reason (m, w1) = (r, (m', w'))).
Proof.
  unfold props.entry_knowledge, props.file_knowledge.
  intros Hs. unfold sync.syncFile in Hs.
  destruct (sync.find_existing _ _ _ _ _) as [[existing reason] w0] eqn:Hfind.
  pose proof (find_existing_frame _ _ _ _ _ _ _ Hfind) as (Hc0 & Hd0 & _ & _ & Hname).
  assert (Hbyname : forall e,
            sync.fileIndex m !! filepath.Base (adapter.Path file) = Some e ->
            existing = Some e).
  { intros e He. by apply Hname. }
  destruct existing as [e|].
  - destruct (streq (sync.Hash e) (adapter.Hash file)) eqn:Hh.
    { simplify_eq. left. by repeat split. }
    apply streq_false in Hh.
    assert (Hdead : forall e0, Some e = Some e0 ->
              sync.Hash e0 <> adapter.Hash file /\ streq reason "hash" = false).
    { intros e0 [= <-]. split; [done|]. apply streq_false. intros ->.
      by apply find_existing_by_hash in Hfind. }
    destruct (streq (sync.or_default (sync.KnowledgeID e) m)
                (sync.or_default (adapter.KnowledgeID file) m)) eqn:Hkb.
    + apply streq_true in Hkb.
      assert (Hun : (if streq (sync.Source e) "openwebui" then false else false) = false)
        by (by destruct (streq (sync.Source e) "openwebui")).
      cbv zeta in Hs. rewrite Hun in Hs. right.
      destruct (strne _ "" && strne (sync.FileID e) "").
      * unfold sync.client_RemoveFileFromKnowledge in Hs.
        destruct (openwebui.RemoveFileFromKnowledge _ _ _ _) as [res c1] eqn:Hrm.
        cbn [snd] in Hs.
        exists (sync.record_call c1
                  (sync.CallRemoveFileFromKnowledge
                     (sync.or_default (adapter.KnowledgeID file) m) (sync.FileID e) res) w0),
          (Some e), reason,
          [sync.CallRemoveFileFromKnowledge
             (sync.or_default (adapter.KnowledgeID file) m) (sync.FileID e) res].
        split; [cbn; by rewrite Hc0|]. split; [done|]. split; [exact Hdead|].
        split; [exact Hbyname|]. split; [right; by exists e, res|].
        split; [|exact Hs]. intros (e0 & [= <-] & Hne). done.
      * exists w0, (Some e), reason, []. rewrite app_nil_r.
        split; [done|]. split; [done|]. split; [exact Hdead|].
        split; [exact Hbyname|]. split; [by left|]. split; [done | exact Hs].
    + right. exists w0, (Some e), reason, []. rewrite app_nil_r.
      split; [done|]. split; [done|]. split; [exact Hdead|].
      split; [exact Hbyname|]. split; [by left|]. split; [done | exact Hs].
  - right. exists w0, None, reason, []. rewrite app_nil_r.
    split; [done|]. split; [done|]. split; [done|].
    split; [exact Hbyname|]. split; [by left|]. split; [done | exact Hs].
Qed.

(** What [syncFile] does to the manager: nothing, or it writes the file's
    entry under the file's base name. *)
Lemma syncFile_manager ctx file source m w r m' w' :
  sync.syncFile rt ctx file source (m, w) = (r, (m', w')) ->
  m' = m \/
  (r = None /\ exists uploaded t,
      m' = sync.with_fileIndex m
             (<[filepath.Base (adapter.Path file) :=
                  props.written_entry m file source uploaded t]> (sync.fileIndex m))).
Proof.
  intros Hs. apply syncFile_cases in Hs
      as [(_ & -> & _)|(w1 & ex & reason & pre & _ & _ & Hdead & _ & _ & _ & Hu)];
    [by left|].
  apply (upload_and_index_cases _ _ _ _ _ _ _ _ _ _ Hdead) in Hu
      as (_ & _ & _ & [(e & _ & -> & _)|[(e & _ & -> & _)|[(u & e & _ & -> & _)|
                        (u & t & -> & -> & _)]]]);
    [by left | by left | by left |].
  right. split; [done|]. by exists u, t.
Qed.

(** C10: when the upload of a per-file sync succeeds and the attach that
    follows it fails, the sync fails with the attach error and the manager,
    its file index included, is what it was before: no entry is created or
    rewritten, and the ID of the new artifact is not recorded. *)
Theorem C10_attach_failure_leaves_index
    ctx file source m w r m' w' (pre : list sync.Call)
    filename content uploaded kid fid e :
  sync.syncFile rt ctx file source (m, w) = (r, (m', w')) ->
  sync.calls w' =
    pre ++ [sync.CallUploadFile filename content (Ok uploaded);
            sync.CallAddFileToKnowledge kid fid (Some e)] ->
  (length (sync.calls w) <= length pre)%nat ->
  m' = m /\ sync.fileIndex m' = sync.fileIndex m /\
  r = Some (Wrapf "failed to add file to knowledge: %w" [] e) /\
  fid = openwebui.ID uploaded /\
  kid = sync.or_default (adapter.KnowledgeID file) m.
Proof.
  intros Hs Hc Hlen.
  apply syncFile_cases in Hs
      as [(_ & _ & Hc0 & _)|(w1 & ex & reason & pre0 & Hc1 & _ & Hdead & _ & Hpre & _ & Hu)].
  { rewrite Hc0 in Hc. length_absurd. }
  apply (upload_and_index_cases _ _ _ _ _ _ _ _ _ _ Hdead) in Hu as (_ & _ & _ & Hu).
  unfold props.file_knowledge in *.
  destruct Hu as [(e1 & _ & _ & Hcalls)|[(e1 & _ & _ & Hcalls)|
                  [(u & e1 & -> & -> & Hcalls)|(u & t & _ & _ & Hcalls)]]];
    rewrite Hcalls, Hc1 in Hc.
  - exfalso. apply (f_equal length) in Hc. rewrite !length_app in Hc. simpl in Hc.
    destruct Hpre as [->|(e0 & res & _ & _ & ->)]; simpl in Hc; lia.
  - apply last_one_of_two in Hc. discriminate.
  - apply last_two_inj in Hc as [Hu Ha]. by simplify_eq.
  - destruct (strne _ ""); cbn [app] in Hc.
    + apply last_two_inj in Hc as [Hu Ha]. discriminate.
    + apply last_one_of_two in Hc. discriminate.
Qed.

(** What [syncFile] leaves alone: the configuration of the manager, the
    failure behaviour of the disk, and the calls already made. *)
Lemma syncFile_frame ctx file source m w r m' w' :
  sync.syncFile rt ctx file source (m, w) = (r, (m', w')) ->
  sync.storagePath m' = sync.storagePath m /\
  sync.knowledgeID m' = sync.knowledgeID m /\
  sync.indexPath m' = sync.indexPath m /\
  sync.write_err (sync.disk w') = sync.write_err (sync.disk w) /\
  sync.mkdir_err (sync.disk w') = sync.mkdir_err (sync.disk w) /\
  exists new, sync.calls w' = sync.calls w ++ new.
Proof.
  intros Hs. pose proof (syncFile_manager _ _ _ _ _ _ _ _ Hs) as Hm.
  assert (Hcfg : sync.storagePath m' = sync.storagePath m /\
                 sync.knowledgeID m' = sync.knowledgeID m /\
                 sync.indexPath m' = sync.indexPath m).
  { by destruct Hm as [->|(_ & u & t & ->)]. }
  destruct Hcfg as (? & ? & ?). repeat (split; [done|]).
  apply syncFile_cases in Hs
      as [(_ & _ & Hc0 & ->)|(w1 & ex & reason & pre0 & Hc1 & Hd1 & Hdead & _ & _ & _ & Hu)].
  { repeat split. exists []. by rewrite app_nil_r. }
  apply (upload_and_index_cases _ _ _ _ _ _ _ _ _ _ Hdead) in Hu as (Hw & Hmk & _ & Hu).
  rewrite Hd1 in Hw, Hmk. repeat (split; [done|]).
  destruct Hu as [(e1 & _ & _ & Hcalls)|[(e1 & _ & _ & Hcalls)|
                  [(u & e1 & _ & _ & Hcalls)|(u & t & _ & _ & Hcalls)]]];
    rewrite Hcalls, Hc1, <- ?app_assoc; by eexists.
Qed.

(** A path that cannot be written keeps its content through [syncFile]. *)
Lemma syncFile_disk ctx file source m w r m' w' p err :
  sync.syncFile rt ctx file source (m, w) = (r, (m', w')) ->
  sync.write_err (sync.disk w) p = Some err ->
  sync.files (sync.disk w') !! p = sync.files (sync.disk w) !! p.
Proof.
  intros Hs Hp. apply syncFile_cases in Hs
      as [(_ & _ & _ & ->)|(w1 & ex & reason & pre0 & _ & Hd1 & Hdead & _ & _ & _ & Hu)];
    [done|].
  apply (upload_and_index_cases _ _ _ _ _ _ _ _ _ _ Hdead) in Hu as (_ & _ & Hfiles & _).
  rewrite <- Hd1. apply (Hfiles p err). by rewrite Hd1.
Qed.

(** A file whose base name is indexed with the file's fingerprint is skipped:
    no call, no change. *)
Lemma syncFile_skips_by_name ctx file source m w e :
  sync.fileIndex m !! filepath.Base (adapter.Path file) = Some e ->
  sync.Hash e = adapter.Hash file ->
  sync.syncFile rt ctx file source (m, w) = (None, (m, w)).
Proof.
  intros Hk Hh. unfold sync.syncFile, sync.find_existing. rewrite Hk.
  by rewrite Hh, streq_refl.
Qed.

(** A [range] that enumerates the index finds an entry with a given
    fingerprint whenever there is one. *)
Lemma find_by_hash_enumerated n (idx : gmap string sync.FileMetadata) k e hash :
  sync.range_enumerates rt ->
  idx !! k = Some e -> sync.Hash e = hash ->
  exists k' e',
    find (fun kv => streq (sync.Hash (snd kv)) hash) (sync.map_range rt n idx)
    = Some (k', e') /\ sync.Hash e' = hash.
Proof.
  intros Hen Hk Hh.
  destruct (find _ _) as [[k' e']|] eqn:Hfind.
  - exists k', e'. split; [done|]. apply find_some in Hfind as [_ H].
    by apply streq_true in H.
  - exfalso. eapply find_none with (x := (k, e)) in Hfind.
    + simpl in Hfind. apply streq_false in Hfind. done.
    + apply list_elem_of_In. rewrite (Hen n idx). by apply elem_of_map_to_list.
Qed.

(** A file whose base name is not indexed, while some entry carries its
    fingerprint, is skipped as well: no call, and the manager is unchanged. *)
Lemma syncFile_skips_by_hash ctx file source m w k e :
  sync.range_enumerates rt ->
  sync.fileIndex m !! filepath.Base (adapter.Path file) = None ->
  sync.fileIndex m !! k = Some e ->
  sync.Hash e = adapter.Hash file ->
  exists w',
    sync.syncFile rt ctx file source (m, w) = (None, (m, w')) /\
    sync.calls w' = sync.calls w /\
    sync.openwebuiClient w' = sync.openwebuiClient w /\
    sync.disk w' = sync.disk w /\ sync.clock w' = sync.clock w.
Proof.
  intros Hen Hnone Hk Hh.
  destruct (find_by_hash_enumerated (sync.rangeSeed w) _ _ _ _ Hen Hk Hh)
    as (k' & e' & Hfind & Hh').
  unfold sync.syncFile, sync.find_existing, sync.range_fileIndex.
  rewrite Hnone, Hfind, Hh', streq_refl. by eexists.
Qed.

(** C1 (as the code has it): a file whose base name is indexed with the same
    fingerprint but under another effective knowledge base is not migrated.
    [syncFile] returns at its first comparison of fingerprints, before it
    looks at the knowledge bases: nothing is uploaded, nothing is attached,
    and the entry keeps its knowledge base and its downstream ID. *)
Theorem C1_equal_fingerprint_is_not_migrated ctx file source m w e :
  sync.fileIndex m !! filepath.Base (adapter.Path file) = Some e ->
  props.entry_knowledge m e <> props.file_knowledge m file ->
  sync.Hash e = adapter.Hash file ->
  exists m' w',
    sync.syncFile rt ctx file source (m, w) = (None, (m', w')) /\
    sync.calls w' = sync.calls w /\
    sync.fileIndex m' !! filepath.Base (adapter.Path file) = Some e.
Proof.
  intros Hk _ Hh. exists m, w.
  by rewrite (syncFile_skips_by_name ctx file source m w e Hk Hh).
Qed.

(** Migration does happen when the fingerprint differs: one upload, one
    attach to the new knowledge base, and the entry rewritten with the new
    knowledge base and the new downstream ID. *)
Lemma syncFile_migrates_changed_file ctx file source m w e r m' w' :
  sync.fileIndex m !! filepath.Base (adapter.Path file) = Some e ->
  props.entry_knowledge m e <> props.file_knowledge m file ->
  sync.Hash e <> adapter.Hash file ->
  sync.syncFile rt ctx file source (m, w) = (r, (m', w')) ->
  r = None ->
  exists uploaded t,
    sync.calls w' =
      sync.calls w ++
        [sync.CallUploadFile (filepath.Base (adapter.Path file))
           (adapter.Content file) (Ok uploaded)] ++
        (if strne (props.file_knowledge m file) "" then
           [sync.CallAddFileToKnowledge (props.file_knowledge m file)
              (openwebui.ID uploaded) None]
         else []) /\
    sync.fileIndex m' !! filepath.Base (adapter.Path file)
    = Some (props.written_entry m file source uploaded t).
Proof.
  intros Hk Hkb Hh Hs ->. unfold props.entry_knowledge, props.file_knowledge in Hkb.
  unfold sync.syncFile, sync.find_existing in Hs. rewrite Hk in Hs.
  apply streq_false in Hh, Hkb. rewrite Hh, Hkb in Hs. apply streq_false in Hh.
  apply upload_and_index_cases in Hs as (_ & _ & _ & Hu).
  2:{ intros e0 [= <-]. by split. }
  destruct Hu as [(e1 & ? & _)|[(e1 & ? & _)|[(u & e1 & ? & _)|(u & t & _ & -> & Hcalls)]]];
    try done.
  exists u, t. rewrite Hcalls. split; [done|]. cbn. by rewrite lookup_insert_eq.
Qed.

(** C2 (as the code has it): a file whose base name is not indexed, while an
    entry under another base name carries its fingerprint, is not uploaded,
    and the index key is not renamed either. The match by fingerprint makes
    the first comparison of fingerprints succeed, so [syncFile] returns there:
    the old key stays, and no entry appears under the new base name. *)
Theorem C2_fingerprint_match_does_not_rename ctx file source m w k e :
  sync.range_enumerates rt ->
  sync.fileIndex m !! filepath.Base (adapter.Path file) = None ->
  sync.fileIndex m !! k = Some e ->
  k <> filepath.Base (adapter.Path file) ->
  sync.Hash e = adapter.Hash file ->
  exists m' w',
    sync.syncFile rt ctx file source (m, w) = (None, (m', w')) /\
    sync.calls w' = sync.calls w /\
    sync.fileIndex m' !! k = Some e /\
    sync.fileIndex m' !! filepath.Base (adapter.Path file) = None.
Proof.
  intros Hen Hnone Hk _ Hh.
  destruct (syncFile_skips_by_hash ctx file source m w k e Hen Hnone Hk Hh)
    as (w' & Hs & Hc & _).
  by exists m, w'.
Qed.

End SyncFileProperties.

(** The first sync of [a/README.md] against a service that stores the upload
    but refuses the attach. *)
Lemma C10_attach_failure_witness :
  let st := (fixtures.manager "" ∅, fixtures.world fixtures.no_attach_mock fixtures.good_disk) in
  let out := sync.syncFile fixtures.rt Background (fixtures.file "a/README.md" "h1" "K1") "github" st in
  exists uploaded e,
    sync.calls (snd (snd out)) =
      [sync.CallUploadFile "README.md" [] (Ok uploaded);
       sync.CallAddFileToKnowledge "K1" "id-README.md" (Some e)] /\
    fst (snd out) = fst st /\ sync.fileIndex (fst (snd out)) = ∅ /\
    fst out = Some (Wrapf "failed to add file to knowledge: %w" [] e).
Proof.
  intros st out.
  exists (mocks.mock_file "id-README.md" "README.md" "" "processed" ""),
    (errors_New "add file to knowledge failed with status 500").
  split; [reflexivity|].
  destruct (C10_attach_failure_leaves_index fixtures.rt Background
              (fixtures.file "a/README.md" "h1" "K1") "github" (fst st) (snd st)
              (fst out) (fst (snd out)) (snd (snd out)) []
              "README.md" [] (mocks.mock_file "id-README.md" "README.md" "" "processed" "")
              "K1" "id-README.md"
              (errors_New "add file to knowledge failed with status 500"))
    as (Hm & Hidx & Hr & _); [reflexivity | reflexivity | simpl; lia |].
  split; [exact Hm|]. split; [rewrite Hidx; reflexivity | exact Hr].
Defined.

(** Scenario S4 on the code: same path, same content, knowledge base K1
    changed to K2. Nothing is uploaded and the entry still binds K1. *)
Lemma C1_equal_fingerprint_witness :
  let m := fixtures.manager "" fixtures.s4_index in
  let w := fixtures.world fixtures.naming_mock fixtures.good_disk in
  let out := sync.syncFile fixtures.rt Background fixtures.s4_file "github" (m, w) in
  props.entry_knowledge m (fixtures.entry "a/README.md" "h1" "f1" "github" "K1") = "K1" /\
  props.file_knowledge m fixtures.s4_file = "K2" /\
  fst out = None /\
  sync.calls (snd (snd out)) = [] /\
  sync.fileIndex (fst (snd out)) !! "README.md"
  = Some (fixtures.entry "a/README.md" "h1" "f1" "github" "K1").
Proof.
  intros m w out.
  destruct (C1_equal_fingerprint_is_not_migrated fixtures.rt Background
              fixtures.s4_file "github" m w
              (fixtures.entry "a/README.md" "h1" "f1" "github" "K1"))
    as (m' & w' & Hs & Hc & Hk); [reflexivity | by vm_compute | reflexivity |].
  split; [reflexivity|]. split; [reflexivity|].
  subst out. rewrite Hs. simpl. split; [reflexivity|]. split; [exact Hc | exact Hk].
Defined.

(** Scenario S5 on the code: the file renamed to [GUIDE.md] with the same
    content. Nothing is uploaded, but the key [README.md] stays and no key
    [GUIDE.md] appears. *)
Lemma C2_fingerprint_match_witness :
  let m := fixtures.manager "" fixtures.s5_index in
  let w := fixtures.world fixtures.naming_mock fixtures.good_disk in
  let out := sync.syncFile fixtures.rt Background fixtures.s5_file "github" (m, w) in
  fst out = None /\
  sync.calls (snd (snd out)) = [] /\
  sync.fileIndex (fst (snd out)) !! "README.md"
  = Some (fixtures.entry "README.md" "h1" "f1" "github" "K1") /\
  sync.fileIndex (fst (snd out)) !! "GUIDE.md" = None.
Proof.
  intros m w out.
  destruct (C2_fingerprint_match_does_not_rename fixtures.rt Background
              fixtures.s5_file "github" m w "README.md"
              (fixtures.entry "README.md" "h1" "f1" "github" "K1"))
    as (m' & w' & Hs & Hc & Hk & Hn);
    [by intros n idx | reflexivity | reflexivity | by vm_compute | reflexivity |].
  subst out. rewrite Hs. simpl.
  split; [reflexivity|]. split; [exact Hc|]. split; [exact Hk | exact Hn].
Defined.

(** ** Orphan reconciliation *)

Section CleanupProperties.

Context {C : Type} `{CI : openwebui.ClientInterface C}.
Variable rt : sync.GoRuntime.
Hypothesis range_ok : sync.range_enumerates rt.

Implicit Types (m : sync.Manager) (w : sync.World C) (e : sync.FileMetadata).

(** The test of the first loop is the orphan condition. *)
Lemma is_orphan_iff present k e :
  sync.is_orphan present k e = true <-> props.orphan present e.
Proof.
  unfold sync.is_orphan, props.orphan.
  assert (Hb : streq (filepath.Base (sync.Path e)) "" = false)
    by apply streq_false, Base_nonempty.
  rewrite Hb, !andb_true_iff, negb_true_iff, bool_decide_eq_false,
    streq_true, strne_true. tauto.
Qed.

(** The keys the first loop collects: the orphans, each once. *)
Lemma collect_orphans_spec present n (idx : gmap string sync.FileMetadata) :
  let ks := sync.collect_orphans present (sync.map_range rt n idx) in
  NoDup ks /\
  forall k, k ∈ ks <-> exists e, idx !! k = Some e /\ props.orphan present e.
Proof.
  simpl. unfold sync.collect_orphans. split.
  - eapply sublist_NoDup; [|apply fmap_sublist, sublist_filter].
    rewrite (range_ok n idx). apply NoDup_fst_map_to_list.
  - intros k. rewrite list_elem_of_fmap. split.
    + intros ([k' e] & -> & Hin). apply list_elem_of_filter in Hin as [Ho Hin].
      rewrite (range_ok n idx) in Hin. apply elem_of_map_to_list in Hin.
      exists e. split; [done|]. by apply is_orphan_iff in Ho.
    + intros (e & Hk & Ho). exists (k, e). split; [done|].
      apply list_elem_of_filter. split; [by apply is_orphan_iff|].
      rewrite (range_ok n idx). by apply elem_of_map_to_list.
Qed.

(** The second loop, on distinct keys of the index: it deletes exactly these
    keys, whatever the detach calls return, and calls the service only to
    detach an entry that has a knowledge base and a downstream ID. *)
Lemma remove_orphans_spec ctx (ks : list string) :
  forall m w r m' w',
    NoDup ks ->
    (forall k, k ∈ ks -> is_Some (sync.fileIndex m !! k)) ->
    sync.remove_orphans ctx ks (m, w) = (r, (m', w')) ->
    r = sync.Returned None /\
    sync.knowledgeID m' = sync.knowledgeID m /\
    sync.indexPath m' = sync.indexPath m /\
    sync.storagePath m' = sync.storagePath m /\
    sync.disk w' = sync.disk w /\
    (forall k, sync.fileIndex m' !! k
               = if decide (k ∈ ks) then None else sync.fileIndex m !! k) /\
    exists ds,
      sync.calls w' = sync.calls w ++ ds /\
      (forall c, c ∈ ds -> exists k e res,
          k ∈ ks /\ sync.fileIndex m !! k = Some e /\
          props.entry_knowledge m e <> "" /\ sync.FileID e <> "" /\
          c = sync.CallRemoveFileFromKnowledge (props.entry_knowledge m e)
                (sync.FileID e) res) /\
      (forall k e, k ∈ ks -> sync.fileIndex m !! k = Some e ->
          props.entry_knowledge m e <> "" -> sync.FileID e <> "" ->
          exists res,
            sync.CallRemoveFileFromKnowledge (props.entry_knowledge m e)
              (sync.FileID e) res ∈ ds).
Proof.
  unfold props.entry_knowledge.
  induction ks as [|k0 ks IH]; intros m w r m' w' Hnd Hin Hr; simpl in Hr.
  - simplify_eq. repeat split; try done.
    exists []. rewrite app_nil_r. repeat split; try done.
    + intros c Hc. by apply elem_of_nil in Hc.
    + intros k e Hk. by apply elem_of_nil in Hk.
  - apply NoDup_cons in Hnd as [Hk0 Hnd].
    destruct (Hin k0 ltac:(left)) as [e0 He0]. rewrite He0 in Hr.
    match type of Hr with sync.remove_orphans _ _ (?m1, ?w1) = _ =>
      set (m1' := m1) in *; set (w1' := w1) in * end.
    assert (Hother : forall k, k ∈ ks -> sync.fileIndex m1' !! k = sync.fileIndex m !! k).
    { intros k Hk. subst m1'. simpl. apply lookup_delete_ne. by intros ->. }
    apply IH in Hr as (-> & Hkid & Hip & Hsp & Hd & Hidx & ds & Hcalls & Hds1 & Hds2);
      [|done|]; cycle 1.
    { intros k Hk. rewrite Hother by done. apply Hin. by right. }
    assert (Hw1 : sync.disk w1' = sync.disk w /\
                  exists d0, sync.calls w1' = sync.calls w ++ d0 /\
                    (forall c, c ∈ d0 ->
                       strne (sync.or_default (sync.KnowledgeID e0) m) "" &&
                       strne (sync.FileID e0) "" = true /\
                       exists res, c = sync.CallRemoveFileFromKnowledge
                          (sync.or_default (sync.KnowledgeID e0) m) (sync.FileID e0) res) /\
                    (strne (sync.or_default (sync.KnowledgeID e0) m) "" &&
                     strne (sync.FileID e0) "" = true ->
                     exists res, sync.CallRemoveFileFromKnowledge
                          (sync.or_default (sync.KnowledgeID e0) m) (sync.FileID e0) res ∈ d0)).
    { subst w1'. destruct (_ && _) eqn:Hcond.
      - unfold sync.client_RemoveFileFromKnowledge, sync.record_call.
        destruct (openwebui.RemoveFileFromKnowledge _ _ _ _) as [res c']. simpl.
        split; [done|]. eexists. split; [done|]. split.
        + intros c Hc. apply list_elem_of_singleton in Hc as ->. split; [done|]. by eexists.
        + intros _. exists res. by apply list_elem_of_singleton.
      - split; [done|]. exists []. rewrite app_nil_r. split; [done|]. split; [|done].
        intros c Hc. by apply elem_of_nil in Hc. }
    destruct Hw1 as (Hd1 & d0 & Hc0 & Hd01 & Hd02).
    split; [done|]. split; [by rewrite Hkid|]. split; [by rewrite Hip|].
    split; [by rewrite Hsp|]. split; [by rewrite Hd|]. split.
    { intros k. rewrite Hidx. subst m1'. simpl.
      destruct (decide (k = k0)) as [->|Hne].
      - rewrite (decide_False (P := k0 ∈ ks)) by done.
        rewrite lookup_delete_eq. by rewrite decide_True by left.
      - rewrite lookup_delete_ne by done.
        destruct (decide (k ∈ ks)) as [Hk|Hk].
        + rewrite decide_True; [done | by right].
        + rewrite decide_False; [done|]. intros [?|?]%elem_of_cons; done. }
    exists (d0 ++ ds). split; [by rewrite Hcalls, Hc0, app_assoc|]. split.
    + intros c [Hc|Hc]%elem_of_app.
      * destruct (Hd01 c Hc) as (Hcond & res & ->). string_facts.
        exists k0, e0, res. repeat split; try done. by left.
      * destruct (Hds1 c Hc) as (k & e & res & Hk & He & Hkb & Hfid & ->).
        rewrite Hother in He by done.
        exists k, e, res. repeat split; try done. by right.
    + intros k e [->|Hk]%elem_of_cons He Hkb Hfid.
      * simplify_eq. destruct Hd02 as [res Hres].
        { apply andb_true_iff. split; by apply strne_true. }
        exists res. apply elem_of_app. by left.
      * destruct (Hds2 k e Hk) as [res Hres]; try done.
        { by rewrite Hother. }
        exists res. apply elem_of_app. by right.
Qed.

(** The early return on an empty list of orphans changes nothing: the
    second loop does nothing on it. *)
Lemma cleanup_unfold ctx present m w :
  sync.cleanupOrphanedFiles rt ctx present (m, w)
  = sync.remove_orphans ctx
      (sync.collect_orphans present (sync.map_range rt (sync.rangeSeed w) (sync.fileIndex m)))
      (m, snd (sync.range_fileIndex rt m w)).
Proof.
  unfold sync.cleanupOrphanedFiles, sync.range_fileIndex. simpl.
  by destruct (sync.collect_orphans _ _).
Qed.

Lemma cleanup_spec ctx present m w r m' w' :
  sync.cleanupOrphanedFiles rt ctx present (m, w) = (r, (m', w')) ->
  r = sync.Returned None /\
  sync.knowledgeID m' = sync.knowledgeID m /\
  sync.indexPath m' = sync.indexPath m /\
  sync.storagePath m' = sync.storagePath m /\
  sync.disk w' = sync.disk w /\
  (forall k e, sync.fileIndex m !! k = Some e ->
     (props.orphan present e -> sync.fileIndex m' !! k = None) /\
     (~ props.orphan present e -> sync.fileIndex m' !! k = Some e)) /\
  (forall k, sync.fileIndex m !! k = None -> sync.fileIndex m' !! k = None) /\
  exists ds,
    sync.calls w' = sync.calls w ++ ds /\
    (forall c, c ∈ ds -> exists k e res,
        sync.fileIndex m !! k = Some e /\ props.orphan present e /\
        props.entry_knowledge m e <> "" /\
        c = sync.CallRemoveFileFromKnowledge (props.entry_knowledge m e)
              (sync.FileID e) res) /\
    (forall k e, sync.fileIndex m !! k = Some e -> props.orphan present e ->
        props.entry_knowledge m e <> "" ->
        exists res,
          sync.CallRemoveFileFromKnowledge (props.entry_knowledge m e)
            (sync.FileID e) res ∈ ds).
Proof.
  rewrite cleanup_unfold. intros Hr.
  destruct (collect_orphans_spec present (sync.rangeSeed w) (sync.fileIndex m))
    as [Hnd Hks].
  apply remove_orphans_spec in Hr
      as (-> & Hkid & Hip & Hsp & Hd & Hidx & ds & Hcalls & Hds1 & Hds2);
    [|done|]; cycle 1.
  { intros k (e & He & _)%Hks. by eexists. }
  repeat (split; [done|]). split; [|split].
  - intros k e He. rewrite Hidx. split.
    + intros Ho. rewrite decide_True; [done|]. apply Hks. by exists e.
    + intros Hno. rewrite decide_False; [done|].
      intros (e' & He' & Ho)%Hks. by simplify_eq.
  - intros k Hk. rewrite Hidx. by case_decide.
  - exists ds. split; [done|]. split.
    + intros c Hc. destruct (Hds1 c Hc) as (k & e & res & Hk & He & Hkb & Hfid & ->).
      apply Hks in Hk as (e' & He' & Ho).
      assert (e' = e) as -> by congruence. by exists k, e, res.
    + intros k e He Ho Hkb. apply (Hds2 k e); try done.
      * apply Hks. by exists e.
      * by destruct Ho as (_ & _ & ?).
Qed.


End CleanupProperties.

(** ** The cycle *)

Section CycleProperties.

Context {C : Type} `{CI : openwebui.ClientInterface C}.
Variable rt : sync.GoRuntime.

Implicit Types (m : sync.Manager) (w : sync.World C) (e : sync.FileMetadata)
  (st : sync.Manager * sync.World C) (cf : gset string).

(** An invariant of the per-file sync is an invariant of the loop over the
    files of an adapter. *)
Lemma sync_files_inv (P : gset string -> sync.Manager * sync.World C -> Prop)
    ctx source (files : list adapter.File) :
  (forall file cf st r st',
      file ∈ files -> P cf st ->
      sync.syncFile rt ctx file source st = (r, st') ->
      P ({[filepath.Base (adapter.Path file)]} ∪ cf) st') ->
  forall cf st cf' st',
    P cf st -> sync.sync_files rt ctx source files cf st = (cf', st') -> P cf' st'.
Proof.
  induction files as [|file files IH]; intros Hstep cf st cf' st' HP Hs; simpl in Hs.
  - by simplify_eq.
  - destruct (sync.syncFile rt ctx file source st) as [r st1] eqn:Hf.
    eapply IH; [| |exact Hs].
    + intros f cf0 st0 r0 st0' Hin. apply Hstep. by right.
    + eapply Hstep; [by left | exact HP | exact Hf].
Qed.

(** One round of the loop over the adapters. *)
Lemma sync_adapters_cons ctx adpt (rest : list adapter.Adapter) cf st :
  sync.sync_adapters rt ctx (adpt :: rest) cf st
  = match adapter.FetchFiles adpt ctx with
    | Err _ =>
        let '(rest', cf', st') := sync.sync_adapters rt ctx rest cf st in
        (adpt :: rest', cf', st')
    | Ok files =>
        let '(cf1, (m, w)) := sync.sync_files rt ctx (adapter.Name adpt) files cf st in
        let '(rest', cf', st') :=
          sync.sync_adapters rt ctx rest cf1 (m, snd (sync.time_Now w)) in
        (adapter.SetLastSync (fst (sync.time_Now w)) adpt :: rest', cf', st')
    end.
Proof.
  simpl. destruct (adapter.FetchFiles adpt ctx); [|done].
  by destruct (sync.sync_files _ _ _ _ _ _) as [cf1 [m w]].
Qed.

(** And of the loop over the adapters, if reading the clock keeps it. *)
Lemma sync_adapters_inv (P : gset string -> sync.Manager * sync.World C -> Prop)
    ctx (adapters : list adapter.Adapter) :
  (forall file source cf st r st',
      file ∈ props.fetched ctx adapters -> P cf st ->
      sync.syncFile rt ctx file source st = (r, st') ->
      P ({[filepath.Base (adapter.Path file)]} ∪ cf) st') ->
  (forall cf m w, P cf (m, w) -> P cf (m, snd (sync.time_Now w))) ->
  forall cf st ads' cf' st',
    P cf st -> sync.sync_adapters rt ctx adapters cf st = (ads', cf', st') -> P cf' st'.
Proof.
  induction adapters as [|adpt rest IH]; intros Hstep Hclock cf st ads' cf' st' HP Hs.
  - simpl in Hs. by simplify_eq.
  - rewrite sync_adapters_cons in Hs. simpl in Hstep.
    destruct (adapter.FetchFiles adpt ctx) as [files|err] eqn:Hfetch.
    + destruct (sync.sync_files rt ctx (adapter.Name adpt) files cf st)
        as [cf1 [m1 w1]] eqn:Hfiles.
      destruct (sync.sync_adapters rt ctx rest cf1 (m1, snd (sync.time_Now w1)))
        as [[rest' cf2] st2] eqn:Hrest.
      simplify_eq. eapply IH; [| exact Hclock | | exact Hrest].
      * intros f src cf0 st0 r0 st0' Hin. apply Hstep. apply elem_of_app. by right.
      * apply Hclock. eapply sync_files_inv; [| exact HP | exact Hfiles].
        intros f cf0 st0 r0 st0' Hin. apply Hstep. apply elem_of_app. by left.
    + destruct (sync.sync_adapters rt ctx rest cf st) as [[rest' cf2] st2] eqn:Hrest.
      simplify_eq. eapply IH; [exact Hstep | exact Hclock | exact HP | exact Hrest].
Qed.

(** The base names collected by the loop over the files. *)
Lemma sync_files_current ctx source (files : list adapter.File) :
  forall cf st cf' st',
    sync.sync_files rt ctx source files cf st = (cf', st') ->
    cf' = cf ∪ list_to_set ((fun f => filepath.Base (adapter.Path f)) <$> files).
Proof.
  induction files as [|file files IH]; intros cf st cf' st' Hs; simpl in Hs.
  - simplify_eq. simpl. set_solver.
  - destruct (sync.syncFile rt ctx file source st) as [r st1].
    apply IH in Hs. rewrite Hs. simpl. set_solver.
Qed.

(** The loop over the adapters collects the base names reported this cycle
    and leaves what the adapters fetch as it is. *)
Lemma sync_adapters_current ctx (adapters : list adapter.Adapter) :
  forall cf st ads' cf' st',
    sync.sync_adapters rt ctx adapters cf st = (ads', cf', st') ->
    cf' = cf ∪ props.reported ctx adapters /\
    props.fetched ctx ads' = props.fetched ctx adapters.
Proof.
  unfold props.reported.
  induction adapters as [|adpt rest IH]; intros cf st ads' cf' st' Hs.
  - simpl in Hs. simplify_eq. simpl. split; [set_solver | done].
  - rewrite sync_adapters_cons in Hs. simpl.
    destruct (adapter.FetchFiles adpt ctx) as [files|err] eqn:Hfetch.
    + destruct (sync.sync_files rt ctx (adapter.Name adpt) files cf st)
        as [cf1 [m1 w1]] eqn:Hfiles.
      destruct (sync.sync_adapters rt ctx rest cf1 (m1, snd (sync.time_Now w1)))
        as [[rest' cf2] st2] eqn:Hrest.
      simplify_eq. apply IH in Hrest as [-> Hf]. apply sync_files_current in Hfiles as ->.
      simpl. rewrite Hfetch, Hf. split; [|done].
      rewrite fmap_app, list_to_set_app_L. set_solver.
    + destruct (sync.sync_adapters rt ctx rest cf st) as [[rest' cf2] st2] eqn:Hrest.
      simplify_eq. apply IH in Hrest as [-> Hf]. simpl. by rewrite Hfetch, Hf.
Qed.

(** The loop over the adapters leaves the configuration of the manager and
    the failure behaviour of the disk as they are. *)
Lemma sync_adapters_frame ctx (adapters : list adapter.Adapter) cf m w ads' cf' m' w' :
  sync.sync_adapters rt ctx adapters cf (m, w) = (ads', cf', (m', w')) ->
  sync.knowledgeID m' = sync.knowledgeID m /\
  sync.indexPath m' = sync.indexPath m /\
  sync.write_err (sync.disk w') = sync.write_err (sync.disk w).
Proof.
  intros Hs.
  apply (sync_adapters_inv
           (fun _ st => sync.knowledgeID (fst st) = sync.knowledgeID m /\
                        sync.indexPath (fst st) = sync.indexPath m /\
                        sync.write_err (sync.disk (snd st)) = sync.write_err (sync.disk w)))
    in Hs; try done.
  intros file source cf0 [m0 w0] r [m1 w1] _ (H1 & H2 & H3) Hf. simpl in *.
  apply syncFile_frame in Hf as (_ & Hk & Hi & Hw & _). by rewrite Hk, Hi, Hw.
Qed.

Hypothesis range_ok : sync.range_enumerates rt.

(** A cycle never panics and never returns an error. *)
Lemma SyncFiles_returns_nil ctx (adapters : list adapter.Adapter) st r ads' st' :
  sync.SyncFiles rt ctx adapters st = (r, ads', st') -> r = sync.Returned None.
Proof.
  destruct st as [m w]. unfold sync.SyncFiles. intros Hs.
  destruct (sync.client_ListKnowledge ctx w) as [lk w0].
  destruct (sync.sync_adapters rt ctx adapters ∅ (m, w0)) as [[ads1 cf1] st1].
  destruct (sync.cleanupOrphanedFiles rt ctx cf1 st1) as [r1 [m2 w2]] eqn:Hc.
  destruct st1 as [m1 w1]. apply (cleanup_spec rt range_ok) in Hc as (-> & _).
  destruct (sync.saveFileIndex rt m2 w2) as [rs w3]. by simplify_eq.
Qed.

(** A cycle, phase by phase. *)
Lemma SyncFiles_phases ctx (adapters : list adapter.Adapter) m w r ads' m' w' :
  sync.SyncFiles rt ctx adapters (m, w) = (r, ads', (m', w')) ->
  exists lk w0 cf m1 w1 w2 rs,
    sync.client_ListKnowledge ctx w = (lk, w0) /\
    sync.sync_adapters rt ctx adapters ∅ (m, w0) = (ads', cf, (m1, w1)) /\
    cf = props.reported ctx adapters /\
    sync.cleanupOrphanedFiles rt ctx cf (m1, w1) = (sync.Returned None, (m', w2)) /\
    sync.saveFileIndex rt m' w2 = (rs, w').
Proof.
  unfold sync.SyncFiles. intros Hs.
  destruct (sync.client_ListKnowledge ctx w) as [lk w0].
  destruct (sync.sync_adapters rt ctx adapters ∅ (m, w0)) as [[ads1 cf1] [m1 w1]] eqn:Ha.
  destruct (sync.cleanupOrphanedFiles rt ctx cf1 (m1, w1)) as [r1 [m2 w2]] eqn:Hc.
  pose proof Hc as Hc'. apply (cleanup_spec rt range_ok) in Hc' as (-> & _).
  destruct (sync.saveFileIndex rt m2 w2) as [rs w3] eqn:Hsave. simplify_eq.
  exists lk, w0, cf1, m1, w1, w2, rs. repeat split; try done.
  apply sync_adapters_current in Ha as [-> _]. set_solver.
Qed.

(** Through the loop over the adapters, an entry stays under its key: as it
    was, or rewritten for a file reported this cycle under that base name. *)
Lemma sync_adapters_keeps_key ctx (adapters : list adapter.Adapter) k e
    cf m w ads' cf' m' w' :
  sync.fileIndex m !! k = Some e ->
  sync.sync_adapters rt ctx adapters cf (m, w) = (ads', cf', (m', w')) ->
  exists e', sync.fileIndex m' !! k = Some e' /\
    (e' = e \/ filepath.Base (sync.Path e') ∈ cf') /\
    (k ∉ cf' -> e' = e).
Proof.
  intros Hk Hs.
  apply (sync_adapters_inv
           (fun cf0 st => exists e', sync.fileIndex (fst st) !! k = Some e' /\
               (e' = e \/ filepath.Base (sync.Path e') ∈ cf0) /\ (k ∉ cf0 -> e' = e)))
    in Hs; try done.
  - intros file source cf0 [m0 w0] r [m1 w1] _ (e' & He' & Hor & Hnot) Hf. simpl in *.
    apply syncFile_manager in Hf as [->|(-> & uploaded & t & ->)].
    + exists e'. split; [done|]. split; [set_solver | set_solver].
    + simpl. destruct (decide (k = filepath.Base (adapter.Path file))) as [->|Hne].
      * rewrite lookup_insert_eq. eexists. split; [done|]. simpl. set_solver.
      * rewrite lookup_insert_ne by done. exists e'. split; [done|]. set_solver.
  - exists e. split; [done|]. split; [by left | done].
Qed.

(** C3: when the fetch of an adapter fails, every index entry whose source is
    that adapter (and not the re-import marker) still has its key in the index
    after the cycle; the entry itself is untouched unless a file with the same
    base name was reported by an adapter that did fetch. *)
Theorem C3_fetch_failure_keeps_entries
    ctx (adapters : list adapter.Adapter) m w r ads' m' w' a err k e :
  sync.SyncFiles rt ctx adapters (m, w) = (r, ads', (m', w')) ->
  a ∈ adapters ->
  adapter.FetchFiles a ctx = Err err ->
  sync.fileIndex m !! k = Some e ->
  sync.Source e = adapter.Name a ->
  adapter.Name a <> "openwebui" ->
  is_Some (sync.fileIndex m' !! k) /\
  (k ∉ props.reported ctx adapters -> sync.fileIndex m' !! k = Some e).
Proof.
  intros Hs _ _ Hk Hsrc Hname.
  apply SyncFiles_phases in Hs
      as (lk & w0 & cf & m1 & w1 & w2 & rs & _ & Ha & -> & Hc & _).
  destruct (sync_adapters_keeps_key _ _ _ _ _ _ _ _ _ _ _ Hk Ha)
    as (e' & He' & Hor & Hnot).
  apply (cleanup_spec rt range_ok) in Hc as (_ & _ & _ & _ & _ & Hidx & _).
  destruct (Hidx k e' He') as [_ Hkeep].
  assert (Hno : ~ props.orphan (props.reported ctx adapters) e').
  { intros (Hp & Hs' & _). destruct Hor as [->|Hin]; [congruence | done]. }
  rewrite (Hkeep Hno). split; [by eexists|]. intros Hnr. by rewrite (Hnot Hnr).
Qed.

(** A path that cannot be written keeps its content through the loop over
    the adapters. *)
Lemma sync_adapters_disk ctx (adapters : list adapter.Adapter) cf m w ads' cf' m' w' p err :
  sync.write_err (sync.disk w) p = Some err ->
  sync.sync_adapters rt ctx adapters cf (m, w) = (ads', cf', (m', w')) ->
  sync.files (sync.disk w') !! p = sync.files (sync.disk w) !! p.
Proof.
  intros Hp Hs.
  apply (sync_adapters_inv
           (fun _ st => sync.write_err (sync.disk (snd st)) p = Some err /\
                        sync.files (sync.disk (snd st)) !! p = sync.files (sync.disk w) !! p))
    in Hs; try done; [by destruct Hs|].
  intros file source cf0 [m0 w0] r0 [m1 w1] _ [Hw Hf] Hsync. simpl in *.
  pose proof (syncFile_disk _ _ _ _ _ _ _ _ _ _ _ Hsync Hw) as Hd.
  apply syncFile_frame in Hsync as (_ & _ & _ & Hwe & _). by rewrite Hwe, Hd.
Qed.


(** A covered file is skipped: no call, and the manager is unchanged. *)
Lemma syncFile_covered ctx file source m w r m' w' :
  props.covered (sync.fileIndex m) file ->
  sync.syncFile rt ctx file source (m, w) = (r, (m', w')) ->
  m' = m /\ sync.calls w' = sync.calls w.
Proof.
  unfold props.covered. intros Hcov Hs.
  destruct (sync.fileIndex m !! filepath.Base (adapter.Path file)) as [e|] eqn:Hk.
  - rewrite (syncFile_skips_by_name rt ctx file source m w e Hk Hcov) in Hs.
    by simplify_eq.
  - destruct Hcov as (k & e & He & Hh).
    destruct (syncFile_skips_by_hash rt ctx file source m w k e range_ok Hk He Hh)
      as (w1 & Hs1 & Hc & _).
    rewrite Hs1 in Hs. by simplify_eq.
Qed.

(** When every reported file is covered, the loop over the adapters makes no
    call and leaves the manager as it is. *)
Lemma sync_adapters_covered ctx (adapters : list adapter.Adapter) cf m w ads' cf' m' w' :
  (forall file, file ∈ props.fetched ctx adapters -> props.covered (sync.fileIndex m) file) ->
  sync.sync_adapters rt ctx adapters cf (m, w) = (ads', cf', (m', w')) ->
  m' = m /\ sync.calls w' = sync.calls w.
Proof.
  intros Hcov Hs.
  apply (sync_adapters_inv
           (fun _ st => fst st = m /\ sync.calls (snd st) = sync.calls w))
    in Hs; try done.
  intros file source cf0 [m0 w0] r0 [m1 w1] Hin [Hm Hc] Hsync. simpl in *. subst m0.
  apply syncFile_covered in Hsync as [-> Hc1]; [|by apply Hcov]. by rewrite Hc1.
Qed.

(** After orphan reconciliation no orphan is left. *)
Lemma cleanup_leaves_no_orphan ctx present m w r m' w' k e :
  sync.cleanupOrphanedFiles rt ctx present (m, w) = (r, (m', w')) ->
  sync.fileIndex m' !! k = Some e -> ~ props.orphan present e.
Proof.
  intros Hc Hk Ho.
  apply (cleanup_spec rt range_ok) in Hc as (_ & _ & _ & _ & _ & Hidx & Hnone & _).
  destruct (sync.fileIndex m !! k) as [e0|] eqn:Hk0.
  - destruct (Hidx k e0 Hk0) as [Hyes Hno].
    assert (Hn0 : ~ props.orphan present e0).
    { intros Ho0. apply Hyes in Ho0. congruence. }
    pose proof (Hno Hn0) as He0. assert (e0 = e) as -> by congruence. done.
  - apply Hnone in Hk0. congruence.
Qed.

(** Orphan reconciliation on an index without orphans makes no call and
    leaves the manager as it is. *)
Lemma cleanup_without_orphans ctx present m w r m' w' :
  (forall k e, sync.fileIndex m !! k = Some e -> ~ props.orphan present e) ->
  sync.cleanupOrphanedFiles rt ctx present (m, w) = (r, (m', w')) ->
  m' = m /\ sync.calls w' = sync.calls w.
Proof.
  intros Hno Hc.
  apply (cleanup_spec rt range_ok) in Hc
      as (_ & Hkid & Hip & Hsp & _ & Hidx & Hnone & ds & Hcalls & Hds & _).
  split.
  - assert (Hi : sync.fileIndex m' = sync.fileIndex m).
    { apply map_eq. intros k. destruct (sync.fileIndex m !! k) as [e|] eqn:Hk.
      - by apply (Hidx k e Hk), (Hno k).
      - by apply Hnone. }
    destruct m, m'. simpl in *. by subst.
  - destruct ds as [|c ds]; [by rewrite app_nil_r in Hcalls|].
    destruct (Hds c ltac:(left)) as (k & e & _ & Hk & Ho & _).
    destruct (Hno k e Hk Ho).
Qed.


End CycleProperties.

(** An outage of [github]: its entry [README.md] is still there, untouched,
    after the cycle. *)
Lemma C3_fetch_failure_witness :
  let st := (fixtures.manager "" fixtures.outage_index,
             fixtures.world fixtures.naming_mock fixtures.good_disk) in
  let out := sync.SyncFiles fixtures.rt Background fixtures.outage_adapters st in
("README.md" ∉ props.reported Background fixtures.outage_adapters) /\
  sync.fileIndex (fst (snd out)) !! "README.md"
  = Some (fixtures.entry "README.md" "h1" "f1" "github" "K1").
Proof.
  intros st out.
  assert (Hrep : "README.md" ∉ props.reported Background fixtures.outage_adapters)
    by (by vm_compute).
  split; [exact Hrep|].
  destruct (C3_fetch_failure_keeps_entries fixtures.rt ltac:(by intros n idx)
              Background fixtures.outage_adapters (fst st) (snd st)
              (fst (fst out)) (snd (fst out)) (fst (snd out)) (snd (snd out))
              (mocks.MockAdapter "github" (Err (errors_New "503 Service Unavailable")))
              (errors_New "503 Service Unavailable") "README.md"
              (fixtures.entry "README.md" "h1" "f1" "github" "K1"))
    as [_ Hkeep];
    [by vm_compute | by left | reflexivity | reflexivity | reflexivity | by vm_compute |].
  exact (Hkeep Hrep).
Defined.







(** ** The downstream client *)

Section ClientProperties.

Variable url_Parse : string -> option error.
Variable json_Unmarshal_File : string -> result openwebui.File.

Implicit Types (c : openwebui.Client) (evs : list openwebui.Event).

Local Abbreviation GetFile := (openwebui.Client_GetFile url_Parse json_Unmarshal_File).
Local Abbreviation poll_once := (openwebui.poll_once url_Parse json_Unmarshal_File).
Local Abbreviation poll_flat := (props.poll_flat url_Parse json_Unmarshal_File).
Local Abbreviation now_of c := (openwebui.now (openwebui.client c)).
Local Abbreviation log_of c := (openwebui.log (openwebui.client c)).

Lemma probes_app evs1 evs2 :
  props.probes (evs1 ++ evs2) = props.probes evs1 ++ props.probes evs2.
Proof. unfold props.probes. apply omap_app. Qed.

(** [GetFile] takes no time, and its last event is the probe with its
    result. *)
Lemma GetFile_spec ctx fileID c r c' :
  GetFile ctx fileID c = (r, c') ->
  openwebui.now (openwebui.client c') = openwebui.now (openwebui.client c) /\
  exists evs,
    openwebui.log (openwebui.client c') = openwebui.log (openwebui.client c) ++ evs /\
    props.probes evs = [(openwebui.now (openwebui.client c), r)].
Proof.
  unfold openwebui.Client_GetFile, openwebui.Do, openwebui.emit, openwebui.with_client.
  intros Hg.
  repeat case_match; simplify_eq; simpl; (split; [done|]);
    rewrite <- ?app_assoc; eexists; (split; [reflexivity|]); done.
Qed.

(** The nested loops are the flat loop over the schedule. *)
Lemma poll_attempts_flat ctx fileID start iv (i : nat) :
  forall attempt c,
    openwebui.poll_attempts url_Parse json_Unmarshal_File ctx fileID start iv i attempt c
    = poll_flat ctx fileID start (replicate i (openwebui.delay iv)) attempt c.
Proof.
  induction i as [|i IH]; intros attempt c; simpl; [done|].
  destruct (poll_once _ _ _ _ _ _) as [[ret|] c1]; [done | apply IH].
Qed.

Lemma poll_flat_app ctx fileID start (ds1 ds2 : list Z) :
  forall attempt c,
    poll_flat ctx fileID start (ds1 ++ ds2) attempt c
    = let '(r, attempt1, c1) := poll_flat ctx fileID start ds1 attempt c in
      match r with
      | Some ret => (Some ret, attempt1, c1)
      | None => poll_flat ctx fileID start ds2 attempt1 c1
      end.
Proof.
  induction ds1 as [|d ds1 IH]; intros attempt c; simpl; [done|].
  destruct (poll_once _ _ _ _ _ _) as [[ret|] c1]; [done | apply IH].
Qed.

Lemma poll_intervals_flat ctx fileID start (ivs : list openwebui.pollInterval) :
  forall attempt c,
    openwebui.poll_intervals url_Parse json_Unmarshal_File ctx fileID start ivs attempt c
    = poll_flat ctx fileID start
        (flat_map (fun iv => replicate (openwebui.attempts iv) (openwebui.delay iv)) ivs)
        attempt c.
Proof.
  induction ivs as [|iv ivs IH]; intros attempt c; simpl; [done|].
  rewrite poll_flat_app, poll_attempts_flat.
  destruct (poll_flat _ _ _ _ _ _) as [[[ret|] attempt1] c1]; [done | apply IH].
Qed.

(** One iteration under a context that is never cancelled: one probe, which
    decides; after a pending probe that is not the last of the schedule the
    clock has advanced by the delay. *)
Lemma poll_once_spec ctx fileID start d attempt c r c' :
  cancelAt ctx = None ->
  poll_once ctx fileID start d attempt c = (r, c') ->
  exists res evs,
    log_of c' = log_of c ++ evs /\
    props.probes evs = [(now_of c, res)] /\
    match r with
    | Some None => props.classify res = props.Ready
    | Some (Some e) =>
        exists st dur,
          props.classify res = props.Failed st /\
          e = Errorf "file processing failed with status: %s after %v"
                [AString st; ADuration dur]
    | None =>
        props.classify res = props.Pending /\
        ((attempt < openwebui.totalAttempts)%nat -> now_of c' = now_of c + d)
    end.
Proof.
  intros Hctx Hp. unfold openwebui.poll_once, ctx_Done in Hp. rewrite Hctx in Hp.
  destruct (GetFile ctx fileID c) as [res c1] eqn:Hg.
  apply GetFile_spec in Hg as (Hnow & evs & Hlog & Hprobes).
  exists res. unfold props.classify.
  destruct res as [file|e].
  - destruct (streq _ "processed" || streq _ "completed" || streq _ "") eqn:Hready.
    { simplify_eq. by exists evs. }
    destruct (streq _ "error" || streq _ "failed") eqn:Hfailed.
    { simplify_eq. exists evs. repeat split; try done. by eexists _, _. }
    destruct (attempt <? openwebui.totalAttempts)%nat eqn:Hlt.
    + unfold openwebui.select_Done_After in Hp. rewrite Hctx in Hp. simplify_eq. simpl.
      eexists. rewrite Hlog, <- app_assoc. split; [reflexivity|].
      rewrite probes_app, Hprobes. split; [done|]. split; [done|]. intros _. lia.
    + simplify_eq. exists evs. repeat split; try done.
      intros Hlt'. apply Nat.ltb_ge in Hlt. lia.
  - simplify_eq. simpl.
    eexists. rewrite Hlog, <- app_assoc. split; [reflexivity|].
    rewrite probes_app, Hprobes. split; [done|]. split; [done|]. intros _. lia.
Qed.

(** The flat loop under a context that is never cancelled. *)
Lemma poll_flat_spec ctx fileID start (ds : list Z) :
  cancelAt ctx = None ->
  forall attempt c r attempt' c',
    (attempt + length ds = openwebui.totalAttempts)%nat ->
    poll_flat ctx fileID start ds attempt c = (r, attempt', c') ->
    exists evs,
      log_of c' = log_of c ++ evs /\
      fst <$> props.probes evs
      = take (length (props.probes evs)) (props.offsets_from (now_of c) ds) /\
      props.wait_shape (props.probes evs) (length ds) r.
Proof.
  intros Hctx. induction ds as [|d ds IH]; intros attempt c r attempt' c' Hlen Hp;
    simpl in Hp.
  - simplify_eq. exists []. rewrite app_nil_r. by repeat split.
  - destruct (poll_once ctx fileID start d (S attempt) c) as [r0 c1] eqn:Hone.
    apply (poll_once_spec _ _ _ _ _ _ _ _ Hctx) in Hone
        as (res & evs0 & Hlog0 & Hprobes0 & Hr0).
    destruct r0 as [ret|].
    + simplify_eq. exists evs0. rewrite Hprobes0. split; [done|]. split; [done|].
      exists [], (now_of c, res). simpl.
      split; [done|]. split; [lia|]. split; [constructor|].
      destruct ret as [e|]; done.
    + destruct Hr0 as [Hpend Hclock].
      apply IH in Hp as (evs1 & Hlog1 & Htimes1 & Hshape1); [|simpl in Hlen; lia].
      exists (evs0 ++ evs1). rewrite Hlog1, Hlog0, <- app_assoc. split; [done|].
      rewrite probes_app, Hprobes0.
      change ([(now_of c, res)] ++ props.probes evs1)
        with ((now_of c, res) :: props.probes evs1).
      split.
      * rewrite fmap_cons. cbn [length props.offsets_from take fst]. f_equal.
        rewrite Htimes1. destruct ds as [|d' ds'].
        { cbn [props.offsets_from]. by rewrite !take_nil. }
        rewrite Hclock; [done|]. simpl in Hlen. lia.
      * destruct r as [ret|]; simpl.
        -- destruct Hshape1 as (pre & q & Hps & Hlt & Hall & Hret).
           exists ((now_of c, res) :: pre), q. rewrite Hps. simpl.
           split; [done|]. split; [lia|]. split; [by constructor | done].
        -- destruct Hshape1 as [Hl Hall]. split; [by rewrite Hl|]. by constructor.
Qed.


(** C9: whenever the exchange of a detach with the service ends in a
    response with status 404 (the file is not in the knowledge base), the
    detach returns nil. *)
Theorem C9_detach_not_found_is_success ctx knowledgeID fileID c r c' t req resp :
  openwebui.Client_RemoveFileFromKnowledge url_Parse ctx knowledgeID fileID c = (r, c') ->
  log_of c' = log_of c ++ [openwebui.EvRequest t req (Ok resp)] ->
  openwebui.StatusCode resp = openwebui.StatusNotFound ->
  r = None /\
  openwebui.Method req = "POST" /\
  openwebui.URL req
  = (openwebui.baseURL c ++ "/api/v1/knowledge/" ++ knowledgeID ++ "/file/remove")%string /\
  openwebui.Body req = openwebui.JSONBody [("file_id", fileID)].
Proof.
  unfold openwebui.Client_RemoveFileFromKnowledge, openwebui.json_Marshal,
    openwebui.http_NewRequestWithContext.
  intros Hr Hlog Hcode.
  destruct (url_Parse _) as [e|] eqn:Hurl.
  { simplify_eq. apply (f_equal length) in Hlog. rewrite length_app in Hlog.
    simpl in Hlog. lia. }
  unfold openwebui.Do, openwebui.emit in Hr.
  destruct (ctx_Done ctx (now_of c)) eqn:Hdone.
  { simplify_eq. simpl in Hlog. apply app_inj_tail in Hlog as [_ Hev]. discriminate. }
  destruct (openwebui.respond _ _ _ _) as [resp0|e] eqn:Hresp.
  2:{ simplify_eq. simpl in Hlog. apply app_inj_tail in Hlog as [_ Hev]. discriminate. }
  simpl in Hr.
  assert (Hev : resp0 = resp /\
            req = openwebui.authorize c
                    (openwebui.set_ContentType "application/json"
                       {| openwebui.Method := "POST";
                          openwebui.URL :=
                            (openwebui.baseURL c ++ "/api/v1/knowledge/" ++
                               knowledgeID ++ "/file/remove")%string;
                          openwebui.ContentType := None;
                          openwebui.Authorization := None;
                          openwebui.Body := openwebui.JSONBody [("file_id", fileID)] |})).
  { destruct (openwebui.StatusCode resp0 =? openwebui.StatusNotFound);
      [|destruct (negb _)]; simplify_eq; simpl in Hlog;
      apply app_inj_tail in Hlog as [_ Hev]; by simplify_eq. }
  destruct Hev as [-> ->]. rewrite Hcode in Hr. simpl in Hr. simplify_eq.
  split; [done|]. unfold openwebui.authorize, openwebui.set_ContentType.
  by destruct (strne _ _).
Qed.

End ClientProperties.


(** C8 (as the code has it): the context is cancelled one second into the
    wait, and the first status probe fails. The wait then runs the plain
    two-second sleep of the probe-error path through the cancellation, and
    reports the cancellation only at the check of the next iteration, at 2 s. *)
Theorem C8_probe_error_sleeps_through_cancellation :
  let c := fixtures.client_of fixtures.broken_service in
  let out := openwebui.Client_waitForFileProcessing fixtures.url_ok
               fixtures.status_decoder fixtures.cancelled_after_1s "f1" c in
  props.slept_through_cancel fixtures.cancelled_after_1s
    (openwebui.log (openwebui.client (snd out))) = true /\
  openwebui.EvSleep 0 (2 * Second) ∈ openwebui.log (openwebui.client (snd out)) /\
  openwebui.now (openwebui.client (snd out)) = 2 * Second /\
  fst out
  = Some (Wrapf "context cancelled while waiting for file processing after %v: %w"
            [ADuration (2 * Second)] ctx_Err).
Proof.
  intros c out. split; [by vm_compute|]. split; [|split; by vm_compute].
  apply list_elem_of_In. vm_compute. right. right. left. reflexivity.
Qed.

(** Detaching a file the service does not know: status 404, result nil. *)
Lemma C9_detach_not_found_witness :
  let c := fixtures.client_of fixtures.forgetful_service in
  let out := openwebui.Client_RemoveFileFromKnowledge fixtures.url_ok Background
               "K1" "f1" c in
  fst out = None /\
  exists req,
    openwebui.log (openwebui.client (snd out))
    = [openwebui.EvRequest 0 req (fixtures.respond_with 404 "Not Found")] /\
    openwebui.URL req = "http://openwebui:8080/api/v1/knowledge/K1/file/remove".
Proof.
  intros c out.
  set (req := {| openwebui.Method := "POST";
                 openwebui.URL := "http://openwebui:8080/api/v1/knowledge/K1/file/remove";
                 openwebui.ContentType := Some "application/json";
                 openwebui.Authorization := Some "Bearer key";
                 openwebui.Body := openwebui.JSONBody [("file_id", "f1")] |}).
  destruct (C9_detach_not_found_is_success fixtures.url_ok Background "K1" "f1" c
              (fst out) (snd out) 0 req
              {| openwebui.StatusCode := 404; openwebui.RespBody := Ok "Not Found" |})
    as (Hr & _ & Hurl & _); [by vm_compute | by vm_compute | reflexivity |].
  split; [exact Hr|]. exists req. split; by vm_compute.
Defined.

(** * Further properties of the code

    ** The per-file sync, path by path *)

Section SyncFileMore.

Context {C : Type} `{CI : openwebui.ClientInterface C}.
Variable rt : sync.GoRuntime.

Implicit Types (m : sync.Manager) (w : sync.World C) (file : adapter.File).

(** A [range] that enumerates the index finds no entry for a fingerprint
    that no entry carries. *)
Lemma find_by_hash_none n (idx : gmap string sync.FileMetadata) hash :
  sync.range_enumerates rt ->
  (forall k e, idx !! k = Some e -> sync.Hash e <> hash) ->
  find (fun kv => streq (sync.Hash (snd kv)) hash) (sync.map_range rt n idx) = None.
Proof.
  intros Hen Hno. destruct (find _ _) as [[k e]|] eqn:Hfind; [|done].
  apply find_some in Hfind as [Hin Hh]. simpl in Hh. apply streq_true in Hh.
  apply list_elem_of_In in Hin. rewrite (Hen n idx) in Hin.
  apply elem_of_map_to_list in Hin. by destruct (Hno k e Hin).
Qed.

(** First upload: a file with no entry under its base name and whose
    fingerprint no entry carries is uploaded under its base name, attached to
    its effective knowledge base if it has one, and recorded under its base
    name with its fingerprint and the ID the service issued. *)
Theorem new_file_is_uploaded_and_recorded ctx file source m w r m' w' :
  sync.range_enumerates rt ->
  sync.fileIndex m !! filepath.Base (adapter.Path file) = None ->
  (forall k e, sync.fileIndex m !! k = Some e -> sync.Hash e <> adapter.Hash file) ->
  sync.syncFile rt ctx file source (m, w) = (r, (m', w')) ->
  r = None ->
  exists uploaded t,
    sync.calls w' =
      sync.calls w ++
        [sync.CallUploadFile (filepath.Base (adapter.Path file))
           (adapter.Content file) (Ok uploaded)] ++
        (if strne (props.file_knowledge m file) "" then
           [sync.CallAddFileToKnowledge (props.file_knowledge m file)
              (openwebui.ID uploaded) None]
         else []) /\
    sync.fileIndex m'
    = <[filepath.Base (adapter.Path file) :=
          props.written_entry m file source uploaded t]> (sync.fileIndex m).
Proof.
  intros Hen Hnone Hfresh Hs ->.
  unfold sync.syncFile, sync.find_existing, sync.range_fileIndex in Hs.
  rewrite Hnone, (find_by_hash_none _ _ _ Hen Hfresh) in Hs.
  apply upload_and_index_cases in Hs as (_ & _ & _ & Hu); [|done].
  destruct Hu as [(e1 & ? & _)|[(e1 & ? & _)|[(u & e1 & ? & _)|(u & t & _ & -> & Hcalls)]]];
    try done.
  exists u, t. by rewrite Hcalls.
Qed.

(** Update in place: a file whose entry, under its base name, is in the
    file's effective knowledge base with another fingerprint. The old artifact
    is detached first, if the knowledge base and the old ID are non-empty, and
    whatever the detach returns the file is then uploaded, attached and its
    entry rewritten. *)
Theorem changed_file_is_replaced ctx file source m w e r m' w' :
  sync.fileIndex m !! filepath.Base (adapter.Path file) = Some e ->
  props.entry_knowledge m e = props.file_knowledge m file ->
  sync.Hash e <> adapter.Hash file ->
  sync.syncFile rt ctx file source (m, w) = (r, (m', w')) ->
  r = None ->
  exists (detach : list sync.Call) uploaded t,
    (if strne (props.file_knowledge m file) "" && strne (sync.FileID e) ""
     then exists res,
         detach = [sync.CallRemoveFileFromKnowledge (props.file_knowledge m file)
                     (sync.FileID e) res]
     else detach = []) /\
    sync.calls w' =
      sync.calls w ++ detach ++
        [sync.CallUploadFile (filepath.Base (adapter.Path file))
           (adapter.Content file) (Ok uploaded)] ++
        (if strne (props.file_knowledge m file) "" then
           [sync.CallAddFileToKnowledge (props.file_knowledge m file)
              (openwebui.ID uploaded) None]
         else []) /\
    sync.fileIndex m'
    = <[filepath.Base (adapter.Path file) :=
          props.written_entry m file source uploaded t]> (sync.fileIndex m).
Proof.
  unfold props.entry_knowledge, props.file_knowledge.
  intros Hk Hkb Hh Hs ->.
  unfold sync.syncFile, sync.find_existing in Hs. rewrite Hk in Hs.
  apply streq_false in Hh. apply streq_true in Hkb. rewrite Hh, Hkb in Hs.
  assert (Hun : (if streq (sync.Source e) "openwebui" then false else false) = false)
    by (by destruct (streq (sync.Source e) "openwebui")).
  cbv zeta in Hs. rewrite Hun in Hs. apply streq_false in Hh.
  assert (Hdead : forall e0, Some e = Some e0 ->
            sync.Hash e0 <> adapter.Hash file /\ streq "filename" "hash" = false).
  { intros e0 [= <-]. by split. }
  destruct (strne _ "" && strne (sync.FileID e) "").
  - unfold sync.client_RemoveFileFromKnowledge in Hs.
    destruct (openwebui.RemoveFileFromKnowledge _ _ _ _) as [res c1]. cbn [snd] in Hs.
    apply (upload_and_index_cases _ _ _ _ _ _ _ _ _ _ _ Hdead) in Hs as (_ & _ & _ & Hu).
    destruct Hu as [(e1 & ? & _)|[(e1 & ? & _)|[(u & e1 & ? & _)|(u & t & _ & -> & Hcalls)]]];
      try done.
    eexists _, u, t. split; [by exists res|]. split; [|done].
    rewrite Hcalls. cbn. by rewrite <- !app_assoc.
  - apply (upload_and_index_cases _ _ _ _ _ _ _ _ _ _ _ Hdead) in Hs as (_ & _ & _ & Hu).
    destruct Hu as [(e1 & ? & _)|[(e1 & ? & _)|[(u & e1 & ? & _)|(u & t & _ & -> & Hcalls)]]];
      try done.
    exists [], u, t. split; [done|]. split; [|done]. by rewrite Hcalls.
Qed.

(** [syncFile] fails only at the local copy, at the upload or at the attach
    (a failing detach of the old artifact never fails it), and a failed sync
    leaves the manager, its index included, as it was. *)
Theorem failed_sync_keeps_manager ctx file source m w err m' w' :
  sync.syncFile rt ctx file source (m, w) = (Some err, (m', w')) ->
  m' = m /\
  exists inner,
    err = Wrapf "failed to save file locally: %w" [] inner \/
    err = Wrapf "failed to upload file to OpenWebUI: %w" [] inner \/
    err = Wrapf "failed to add file to knowledge: %w" [] inner.
Proof.
  intros Hs. apply syncFile_cases in Hs
      as [(? & _)|(w1 & ex & reason & pre & _ & _ & Hdead & _ & _ & _ & Hu)]; [done|].
  apply (upload_and_index_cases _ _ _ _ _ _ _ _ _ _ _ Hdead) in Hu as (_ & _ & _ & Hu).
  destruct Hu as [(e1 & [= ->] & -> & _)|[(e1 & [= ->] & -> & _)|
                  [(u & e1 & [= ->] & -> & _)|(u & t & ? & _)]]]; try done;
    (split; [done|]); exists e1; auto.
Qed.

(** When the local copy cannot be written, nothing is uploaded and nothing is
    attached: the only call the sync may have made is the detach of the old
    artifact, which comes before the local copy. *)
Theorem local_copy_failure_uploads_nothing ctx file source m w inner m' w' :
  sync.syncFile rt ctx file source (m, w)
  = (Some (Wrapf "failed to save file locally: %w" [] inner), (m', w')) ->
  exists new,
    sync.calls w' = sync.calls w ++ new /\
    props.count props.is_upload new = 0%nat /\
    props.count props.is_attach new = 0%nat /\
    (length new <= 1)%nat.
Proof.
  intros Hs. apply syncFile_cases in Hs
      as [(? & _)|(w1 & ex & reason & pre & Hc1 & _ & Hdead & _ & Hpre & _ & Hu)]; [done|].
  apply (upload_and_index_cases _ _ _ _ _ _ _ _ _ _ _ Hdead) in Hu as (_ & _ & _ & Hu).
  destruct Hu as [(e1 & _ & _ & Hcalls)|[(e1 & ? & _)|[(u & e1 & ? & _)|(u & t & ? & _)]]];
    try done.
  exists pre. rewrite Hcalls, Hc1. split; [done|].
  destruct Hpre as [->|(e0 & res & _ & _ & ->)]; cbn; repeat split; lia.
Qed.

(** [syncFile] writes at most the key of the file's own base name: every
    other key keeps its entry, and no key is ever removed (the rename of a
    key matched by fingerprint never happens). *)
Theorem syncFile_touches_one_key ctx file source m w r m' w' :
  sync.syncFile rt ctx file source (m, w) = (r, (m', w')) ->
  (forall k, k <> filepath.Base (adapter.Path file) ->
     sync.fileIndex m' !! k = sync.fileIndex m !! k) /\
  dom (sync.fileIndex m) ⊆ dom (sync.fileIndex m').
Proof.
  intros Hs. apply syncFile_manager in Hs as [->|(_ & u & t & ->)]; [done|].
  cbn. split.
  - intros k Hk. by rewrite lookup_insert_ne.
  - rewrite dom_insert. set_solver.
Qed.

(** After a successful per-file sync the file is covered by the index: the
    entry under its base name carries its fingerprint, or there is none
    there and some other entry carries it. *)
Theorem synced_file_is_covered ctx file source m w m' w' :
  sync.range_enumerates rt ->
  sync.syncFile rt ctx file source (m, w) = (None, (m', w')) ->
  props.covered (sync.fileIndex m') file.
Proof.
  intros Hen Hs. unfold props.covered.
  unfold sync.syncFile in Hs.
  destruct (sync.find_existing _ _ _ _ _) as [[existing reason] w0] eqn:Hfind.
  assert (Hdone : forall e, existing = Some e -> sync.Hash e = adapter.Hash file ->
            match sync.fileIndex m !! filepath.Base (adapter.Path file) with
            | Some e0 => sync.Hash e0 = adapter.Hash file
            | None => exists k e1, sync.fileIndex m !! k = Some e1 /\
                                   sync.Hash e1 = adapter.Hash file
            end).
  { intros e -> Hh. unfold sync.find_existing, sync.range_fileIndex in Hfind.
    destruct (sync.fileIndex m !! _) as [e0|]; [by simplify_eq|].
    destruct (find _ _) as [[k e1]|] eqn:Hf; [|done]. simplify_eq.
    apply find_some in Hf as [Hin _]. apply list_elem_of_In in Hin.
    rewrite (Hen _ _) in Hin. apply elem_of_map_to_list in Hin. by exists k, e. }
  assert (Hwritten : forall ex (w1 : sync.World C),
            (forall e, ex = Some e -> sync.Hash e <> adapter.Hash file /\
                                      streq reason "hash" = false) ->
            sync.upload_and_index rt ctx file source ex reason (m, w1) = (None, (m', w')) ->
            match sync.fileIndex m' !! filepath.Base (adapter.Path file) with
            | Some e0 => sync.Hash e0 = adapter.Hash file
            | None => exists k e1, sync.fileIndex m' !! k = Some e1 /\
                                   sync.Hash e1 = adapter.Hash file
            end).
  { intros ex w1 Hdead Hu.
    apply (upload_and_index_cases _ _ _ _ _ _ _ _ _ _ _ Hdead) in Hu as (_ & _ & _ & Hu).
    destruct Hu as [(e1 & ? & _)|[(e1 & ? & _)|[(u & e1 & ? & _)|(u & t & _ & -> & _)]]];
      try done.
    cbn. by rewrite lookup_insert_eq. }
  destruct existing as [e|].
  - destruct (streq (sync.Hash e) (adapter.Hash file)) eqn:Hh.
    { simplify_eq. apply streq_true in Hh. by apply (Hdone e). }
    apply streq_false in Hh.
    assert (Hdead : forall e0, Some e = Some e0 ->
              sync.Hash e0 <> adapter.Hash file /\ streq reason "hash" = false).
    { intros e0 [= <-]. split; [done|]. apply streq_false. intros ->.
      by apply find_existing_by_hash in Hfind. }
    cbv zeta in Hs.
    destruct (streq (sync.or_default _ m) (sync.or_default _ m)).
    + assert (Hun : (if streq (sync.Source e) "openwebui" then false else false) = false)
        by (by destruct (streq (sync.Source e) "openwebui")).
      rewrite Hun in Hs. by apply (Hwritten _ _ Hdead Hs).
    + by apply (Hwritten _ _ Hdead Hs).
  - apply (Hwritten None w0); [done | exact Hs].
Qed.

End SyncFileMore.
